(** * Portfolio RAG backend: a shallow embedding of the Python sources

  The development follows the three modules of the repository:
  [initialize_pinecone.py] (document loader and index builder),
  [rag_pipeline.py] (retrieval, prompt composition, answer generation)
  and [main.py] (HTTP and WebSocket handlers with the process-wide
  statistics).  Hosted services (vector store, embedding service, chat
  model), the file system, the JSON parser and the clock are outside the
  repository: their answers are inputs of the embedded functions. *)

From Stdlib Require Import List String Ascii ZArith Bool Arith Lia Floats.
From Equations Require Import Equations.
Import ListNotations.
Open Scope string_scope.
Open Scope list_scope.
Open Scope nat_scope.

(** String concatenation, as Python's [+] and f-strings build text. *)
Infix "^^" := String.append (at level 60, right associativity).

Set Implicit Arguments.
Set Warnings "-register-all".

(** ** Python values, exceptions and the built-ins the sources rely on *)
Module Py.

(** What [json.load] can return; also used for the values stored in a
    [Document]'s metadata.  A [dict] keeps its insertion order, so it is
    an association list (keys unique, as [json.load] builds them). *)
Inductive value : Type :=
| VNone
| VBool (b : bool)
| VInt (z : Z)
| VFloat (f : float)
| VStr (s : string)
| VList (l : list value)
| VDict (d : list (string * value)).

Inductive exc : Type :=
| AttributeError
| TypeError
| JSONDecodeError
| OSError
| HTTPException (status_code : Z) (detail : string)
| WebSocketDisconnect
| ServiceError (msg : string).

(** Outcome of a call that may raise. *)
Inductive result (A : Type) : Type :=
| Ok (a : A)
| Raise (e : exc).
Arguments Ok {A} a.
Arguments Raise {A} e.

Definition bind {A B} (r : result A) (k : A -> result B) : result B :=
  match r with
  | Ok a => k a
  | Raise e => Raise e
  end.

Definition is_ok {A} (r : result A) : bool :=
  match r with Ok _ => true | Raise _ => false end.

Definition nl : string := String (ascii_of_nat 10) EmptyString.
Definition dq : string := String (ascii_of_nat 34) EmptyString.

(** [sep.join(parts)] on strings. *)
Definition join (sep : string) (parts : list string) : string :=
  String.concat sep parts.

(** [s.endswith(suffix)] *)
Definition endswith (s suffix : string) : bool :=
  let n := String.length s in
  let m := String.length suffix in
  (m <=? n) && String.eqb (substring (n - m) m s) suffix.

(** [s.replace(old, new)] for a non-empty [old]: occurrences are replaced
    from left to right, without overlap. *)
Fixpoint replace_from (skip : nat) (old new s : string) : string :=
  match s with
  | EmptyString => EmptyString
  | String c rest =>
      match skip with
      | S k => replace_from k old new rest
      | O =>
          if prefix old s
          then new ^^ replace_from (String.length old - 1) old new rest
          else String c (replace_from 0 old new rest)
      end
  end.

Definition replace (old new s : string) : string := replace_from 0 old new s.

(** [x in d] and [d.get(k, default)] on a dict. *)
Fixpoint lookup (k : string) (d : list (string * value)) : option value :=
  match d with
  | [] => None
  | (k', v) :: rest => if String.eqb k k' then Some v else lookup k rest
  end.

Definition contains (k : string) (d : list (string * value)) : bool :=
  match lookup k d with Some _ => true | None => false end.

Definition dict_get (d : list (string * value)) (k : string) (default : value) : value :=
  match lookup k d with Some v => v | None => default end.

(** [v.get(k, default)]: only a dict has the method. *)
Definition get (v : value) (k : string) (default : value) : result value :=
  match v with
  | VDict d => Ok (dict_get d k default)
  | _ => Raise AttributeError
  end.

(** Truth value of an object, as [if x:] tests it. *)
Definition truthy (v : value) : bool :=
  match v with
  | VNone => false
  | VBool b => b
  | VInt z => negb (Z.eqb z 0)
  | VFloat f => negb (PrimFloat.eqb f PrimFloat.zero)
  | VStr s => negb (String.eqb s "")
  | VList l => match l with [] => false | _ => true end
  | VDict d => match d with [] => false | _ => true end
  end.

(** The characters of a text, one [ascii] each: texts are taken to be
    ASCII, where a character and a byte coincide. *)
Definition chars (s : string) : list value :=
  map (fun c => VStr (String c EmptyString)) (list_ascii_of_string s).

(** [for x in v]: lists give their items, dicts their keys, strings their
    characters; anything else is not iterable. *)
Definition iterate (v : value) : result (list value) :=
  match v with
  | VList l => Ok l
  | VDict d => Ok (map (fun kv => VStr (fst kv)) d)
  | VStr s => Ok (chars s)
  | _ => Raise TypeError
  end.

(** [', '.join(items)]: every item has to be a [str]. *)
Fixpoint strings_of (items : list value) : result (list string) :=
  match items with
  | [] => Ok []
  | VStr s :: rest => bind (strings_of rest) (fun ss => Ok (s :: ss))
  | _ :: _ => Raise TypeError
  end.

(** Slice [l[i:j]] for [0 <= i]. *)
Definition slice {A} (i j : nat) (l : list A) : list A :=
  firstn (j - i) (skipn i l).

(** [range(start, stop, step)] for a positive [step]. *)
Equations? range (start stop step : nat) : list nat by wf (stop - start) lt :=
  range start stop 0 := [];
  range start stop (S k) with lt_dec start stop := {
    | left _ := start :: range (start + S k) stop (S k);
    | right _ := [] }.
Proof. lia. Qed.

End Py.

Notation "x <- c1 ;; c2" := (Py.bind c1 (fun x => c2))
(at level 61, c1 at next level, right associativity).

(** ** [initialize_pinecone.py]: document loader and index builder *)
Module InitializePinecone.
Import Py.

(** The parts of the Python runtime the loader calls: [json.load] on the
    text of a file ([None] when it raises), [json.dumps(data, indent=2)],
    and the text an f-string gives for a value that is not a [str], [None]
    or a [bool]. *)
Class Runtime : Type := {
  json_load : string -> option value;
  json_dumps_indent2 : value -> string;
  repr : value -> string
}.

(** The data directory as the loader sees it: [os.path.exists], the
    entries [os.listdir] returns and the text of a file ([None] when [open]
    or the read raises).  The record describes a path whose listing
    returns: [os.listdir] raising on an existing path, which line 27 does
    not catch, is outside it. *)
Record FileSystem : Type := {
  exists_ : string -> bool;
  listdir : string -> list string;
  read_text : string -> option string
}.

Record Document : Type := {
  page_content : string;
  metadata : list (string * value)
}.

Definition AGENT_DATA_DIR : string :=
  "/mnt/data/hammadali08/PycharmProjects/Portfolio/backend/data".

(** [os.path.join(AGENT_DATA_DIR, filename)] for a directory entry. *)
Definition path_join (dir filename : string) : string := dir ^^ "/" ^^ filename.

(** A [for] loop whose body may raise, threading the loop's accumulator. *)
Fixpoint for_each {A S : Type} (items : list A) (body : S -> A -> result S) (acc : S)
  : result S :=
  match items with
  | [] => Ok acc
  | x :: rest => acc' <- body acc x ;; for_each rest body acc'
  end.

Section Loader.
Context {rt : Runtime}.

(** The text an f-string substitutes for [{v}]. *)
Definition fmt (v : value) : string :=
  match v with
  | VStr s => s
  | VNone => "None"
  | VBool true => "True"
  | VBool false => "False"
  | _ => repr v
  end.

(** Lines 44-50: the [personal_profile] section. *)
Definition personal_profile (info : value) (content_parts : list string)
  : result (list string) :=
  name <- get info "name" (VStr "") ;;
  title <- get info "title" (VStr "") ;;
  contact <- get info "contact" (VDict []) ;;
  email <- get contact "email" (VStr "") ;;
  location <- get info "location" (VStr "") ;;
  summary <- get info "summary" (VStr "") ;;
  Ok (content_parts ++ ["Name: " ^^ fmt name; "Title: " ^^ fmt title;
                        "Contact: " ^^ fmt email; "Location: " ^^ fmt location;
                        "About: " ^^ fmt summary]).

(** Lines 55-62: one entry of [professional_experience]. *)
Definition experience_entry (content_parts : list string) (exp : value)
  : result (list string) :=
  match exp with
  | VDict d =>
      let role := dict_get d "role" (VStr "") in
      let company := dict_get d "company" (VStr "") in
      if truthy role && truthy company then
        achievements <- iterate (dict_get d "achievements" (VList [])) ;;
        Ok ((content_parts ++ ["- " ^^ fmt role ^^ " at " ^^ fmt company])
              ++ map (fun ach => "  * " ^^ fmt ach) achievements)
      else Ok content_parts
  | _ => Ok content_parts
  end.

(** Lines 67-72: one entry of [projects]. *)
Definition project_entry (content_parts : list string) (proj : value)
  : result (list string) :=
  match proj with
  | VDict d =>
      let name := dict_get d "name" (VStr "") in
      let desc := dict_get d "description" (VStr "") in
      if truthy name
      then Ok (content_parts ++ ["- " ^^ fmt name ^^ ": " ^^ fmt desc])
      else Ok content_parts
  | _ => Ok content_parts
  end.

(** Lines 78-80: one item of the [skills] mapping. *)
Definition skills_entry (content_parts : list string) (item : string * value)
  : result (list string) :=
  match snd item with
  | VList skills =>
      names <- strings_of skills ;;
      Ok (content_parts ++ ["- " ^^ fst item ^^ ": " ^^ join ", " names])
  | _ => Ok content_parts
  end.

(** Lines 40-80: the field-extraction policy on a parsed dict. *)
Definition extract_sections (data : list (string * value)) : result (list string) :=
  let content_parts : list string := [] in
  content_parts <-
    (if contains "personal_profile" data
     then personal_profile (dict_get data "personal_profile" VNone) content_parts
     else Ok content_parts) ;;
  content_parts <-
    (if contains "professional_experience" data
     then
       entries <- iterate (dict_get data "professional_experience" VNone) ;;
       for_each entries experience_entry
                (content_parts ++ [nl ^^ "Professional Experience:"])
     else Ok content_parts) ;;
  content_parts <-
    (if contains "projects" data
     then
       entries <- iterate (dict_get data "projects" VNone) ;;
       for_each entries project_entry (content_parts ++ [nl ^^ "Projects:"])
     else Ok content_parts) ;;
  if contains "skills" data
  then
    match dict_get data "skills" VNone with
    | VDict items => for_each items skills_entry (content_parts ++ [nl ^^ "Skills:"])
    | _ => Ok (content_parts ++ [nl ^^ "Skills:"])
    end
  else Ok content_parts.

(** Lines 37-94 on the parsed [data] of one file: the Document built from
    it, or the exception that leaves the [try] block. *)
Definition document_of (filename : string) (data : value) : result Document :=
  content_parts <-
    match data with
    | VDict d => extract_sections d
    | _ => Ok []
    end ;;
  let content :=
    match content_parts with
    | [] => json_dumps_indent2 data
    | _ => join nl content_parts
    end in
  name <- get data "name" (VStr (replace ".json" "" filename)) ;;
  Ok {| page_content := content;
        metadata := [("source", VStr filename);
                     ("type", VStr "portfolio_data");
                     ("name", name)] |}.

(** Lines 32-94: open, parse and convert one file. *)
Definition load_file (fs : FileSystem) (filename : string) : result Document :=
  match read_text fs (path_join AGENT_DATA_DIR filename) with
  | None => Raise OSError
  | Some text =>
      match json_load text with
      | None => Raise JSONDecodeError
      | Some data => document_of filename data
      end
  end.

(** Lines 27-100: the body of the loop over the directory entries; the
    [except] clause logs the error and goes on with the next entry. *)
Definition load_entry (fs : FileSystem) (documents : list Document) (filename : string)
  : list Document :=
  if endswith filename ".json" then
    match load_file fs filename with
    | Ok doc => documents ++ [doc]
    | Raise _ => documents
    end
  else documents.

Definition load_json_data (fs : FileSystem) : list Document :=
  let documents : list Document := [] in
  if negb (exists_ fs AGENT_DATA_DIR) then documents
  else fold_left (load_entry fs) (listdir fs AGENT_DATA_DIR) documents.

End Loader.

(** The answers of the hosted services during one run of the index builder.
    [describe_index_stats] gives the [dimension] entry of the statistics
    ([None] when the entry is absent); [from_documents i batch] is the
    upload of the batch that starts at offset [i]. *)
Record Services : Type := {
  PINECONE_API_KEY : option string;
  PINECONE_INDEX_NAME : string;
  Pinecone : result unit;
  list_indexes : result (list string);
  describe_index_stats : result (option Z);
  PineconeEmbeddings : result unit;
  from_documents : nat -> list Document -> result unit;
  from_existing_index : result unit;
  similarity_search : string -> nat -> result (list Document);
  final_index_stats : result unit
}.

(** What a run does to the outside world, in order. *)
Inductive event : Type :=
| ClientCreated
| IndexesListed
| StatsRead
| DocumentsLoaded (n : nat)
| EmbeddingsCreated
| Upload (batch : list Document) (succeeded : bool)
| Sleep (seconds : nat)
| IndexOpened
| Search (query : string)
| FinalStatsRead.

Definition is_upload (e : event) : bool :=
  match e with Upload _ _ => true | _ => false end.

Definition is_load (e : event) : bool :=
  match e with DocumentsLoaded _ => true | _ => false end.

(** The batches handed to the upload call, attempted or not. *)
Fixpoint uploads (log : list event) : list (list Document) :=
  match log with
  | [] => []
  | Upload batch _ :: rest => batch :: uploads rest
  | _ :: rest => uploads rest
  end.

(** The batches whose upload call returned. *)
Fixpoint uploaded (log : list event) : list (list Document) :=
  match log with
  | [] => []
  | Upload batch true :: rest => batch :: uploaded rest
  | _ :: rest => uploaded rest
  end.

Definition batch_size : nat := 5.

Definition test_queries : list string :=
  ["Who is Hammad Ali Tahir?";
   "What AI projects has Hammad worked on?";
   "What skills does Hammad have?"].

(** Lines 189-210: one turn of the upload loop. *)
Definition upload_batch (sv : Services) (documents : list Document) (total_docs : nat)
  (log : list event) (i : nat) : list event :=
  let batch_docs := slice i (i + batch_size) documents in
  match from_documents sv i batch_docs with
  | Ok _ =>
      (log ++ [Upload batch_docs true])
        ++ (if i + batch_size <? total_docs then [Sleep 2] else [])
  | Raise _ => log ++ [Upload batch_docs false]
  end.

(** Lines 229-236: the smoke-test queries, up to the first one that
    raises; the flag tells whether all of them returned. *)
Fixpoint smoke_tests (sv : Services) (queries : list string) : list event * bool :=
  match queries with
  | [] => ([], true)
  | query :: rest =>
      match similarity_search sv query 1 with
      | Ok _ => let (evs, done) := smoke_tests sv rest in (Search query :: evs, done)
      | Raise _ => ([Search query], false)
      end
  end.

(** Lines 216-245: the final verification; whatever it raises is caught. *)
Definition final_verification (sv : Services) : list event :=
  match from_existing_index sv with
  | Raise _ => []
  | Ok _ =>
      IndexOpened ::
      let (evs, done) := smoke_tests sv test_queries in
      evs ++ (if done
              then match final_index_stats sv with
                   | Ok _ => [FinalStatsRead]
                   | Raise _ => []
                   end
              else [])
  end.

Definition key_missing (key : option string) : bool :=
  match key with
  | None => true
  | Some k => String.eqb k ""
  end.

Definition dimension_is_1024 (dimension : option Z) : bool :=
  match dimension with
  | Some d => Z.eqb d 1024
  | None => false
  end.

(** Lines 104-254.  The result is the returned boolean together with the
    log of what the run did; console output is not modelled. *)
Definition initialize_pinecone {rt : Runtime} (sv : Services) (fs : FileSystem)
  : bool * list event :=
  if key_missing (PINECONE_API_KEY sv) then (false, [])
  else
    match Pinecone sv with
    | Raise _ => (false, [])
    | Ok _ =>
        match list_indexes sv with
        | Raise _ => (false, [ClientCreated])
        | Ok existing_indexes =>
            if negb (existsb (String.eqb (PINECONE_INDEX_NAME sv)) existing_indexes)
            then (false, [ClientCreated; IndexesListed])
            else
              match describe_index_stats sv with
              | Raise _ => (false, [ClientCreated; IndexesListed])
              | Ok dimension =>
                  if negb (dimension_is_1024 dimension)
                  then (false, [ClientCreated; IndexesListed; StatsRead])
                  else
                    let documents := load_json_data fs in
                    let log := [ClientCreated; IndexesListed; StatsRead;
                                DocumentsLoaded (List.length documents)] in
                    match documents with
                    | [] => (false, log)
                    | _ :: _ =>
                        match PineconeEmbeddings sv with
                        | Raise _ => (false, log)
                        | Ok _ =>
                            let total_docs := List.length documents in
                            let log :=
                              fold_left (upload_batch sv documents total_docs)
                                        (range 0 total_docs batch_size)
                                        (log ++ [EmbeddingsCreated]) in
                            (true, log ++ final_verification sv)
                        end
                    end
              end
        end
    end.

End InitializePinecone.

(** ** [rag_pipeline.py]: retrieval, prompt composition, answer generation *)
Module RagPipeline.
Import Py.
Import InitializePinecone (Document, page_content, metadata).

(** The vector-store client: [similarity_search(query, k)]. *)
Record VectorStore : Type := {
  similarity_search : string -> nat -> result (list Document)
}.

(** What a generator hands out before it is exhausted or raises. *)
Record stream : Type := {
  chunks : list string;
  failure : option exc
}.

(** The chain [prompt | llm | StrOutputParser()] seen from the composed
    prompt text on: [chain_stream] is what [chain.stream] yields,
    [chain_invoke] what [chain.invoke] returns. *)
Record ChatModel : Type := {
  chain_stream : string -> stream;
  chain_invoke : string -> result string
}.

(** The instance attributes set by [__init__] (the embedding client lives
    inside the vector-store handle); [ident] is the identity of the object. *)
Record RAGPipeline : Type := {
  ident : nat;
  api_key : option string;
  llm : ChatModel;
  index_name : string;
  vectorstore : VectorStore
}.

(** The template of lines 31-53, up to the [{context}] placeholder. *)
Definition template_head : string :=
  join nl
  ["";
   "        You ARE Hammad Ali Tahir, speaking directly to visitors on your portfolio website and make sure to try";
   "        to communicate and do not give answers in a way that you are a machine.";
   "        Speak in FIRST PERSON (I, me, my) - you are not an assistant talking ABOUT Hammad, you ARE Hammad.";
   "        ";
   "        Your data and context:";
   "        "].

(** Between the [{context}] and [{question}] placeholders. *)
Definition template_middle : string :=
  join nl
  ["";
   "        ";
   "        Visitor's question (Which should get most priority to generate response):";
   "        "].

(** After the [{question}] placeholder. *)
Definition template_tail : string :=
  join nl
  ["";
   "        ";
   "        Response guidelines:";
   "        1. Always speak as " ^^ dq ^^ "I" ^^ dq ^^ " - never say " ^^ dq ^^ "Hammad" ^^ dq ^^ " or " ^^ dq ^^ "he" ^^ dq ^^ " when referring to yourself";
   "        2. Be conversational, friendly, and confident - like you're chatting with a potential collaborator";
   "        3. Keep responses concise and focused - avoid long markdown tables or overly formal structures";
   "        4. Highlight your key achievements naturally in conversation";
   "        5. Your motto: " ^^ dq ^^ "AI = Logic + Data + Imagination" ^^ dq ^^ " - embody this philosophy";
   "        6. If asked something not in context, say " ^^ dq ^^ "I haven't shared that publicly yet" ^^ dq ^^ " or similar";
   "        7. Show genuine enthusiasm for AI, ML, and building intelligent systems";
   "        8. Never give the 'My site: <hammadalit-iahir-hywb9z.gamma.site/>' to anybody";
   "        ";
   "        Your response (speak as Hammad and give concise answer untill and unless the details are been asked):";
   "        "].

(** [self.prompt] applied to its two inputs. *)
Definition prompt (context question : string) : string :=
  template_head ^^ context ^^ template_middle ^^ question ^^ template_tail.

(** What [__init__] asks of the process environment and the client
    libraries: the two environment variables and the three constructors. *)
Record Platform : Type := {
  getenv_PINECONE_API_KEY : option string;
  getenv_PINECONE_INDEX_NAME : option string;
  new_PineconeEmbeddings : result unit;
  new_ChatGroq : result ChatModel;
  new_PineconeVectorStore : string -> result VectorStore
}.

(** Lines 14-61: [RAGPipeline()], for the object identity [fresh]. *)
Definition RAGPipeline_init (pf : Platform) (fresh : nat) : result RAGPipeline :=
  let api_key := getenv_PINECONE_API_KEY pf in
  _ <- new_PineconeEmbeddings pf ;;
  llm <- new_ChatGroq pf ;;
  let index_name :=
    match getenv_PINECONE_INDEX_NAME pf with
    | Some name => name
    | None => "greyfang"
    end in
  vectorstore <- new_PineconeVectorStore pf index_name ;;
  Ok {| ident := fresh; api_key := api_key; llm := llm;
        index_name := index_name; vectorstore := vectorstore |}.

Definition _query_understanding (query : string) : string := query.

(** [retrieve(query, k=4)] *)
Definition retrieve (self : RAGPipeline) (query : string) (k : nat)
  : result (list Document) :=
  similarity_search (vectorstore self) query k.

Definition format_docs (docs : list Document) : string :=
  join (nl ^^ nl) (map page_content docs).

(** Lines 73-86.  A failed retrieval makes the generator raise before it
    yields anything. *)
Definition get_response_stream (self : RAGPipeline) (query : string) : stream :=
  let processed_query := _query_understanding query in
  match retrieve self processed_query 4 with
  | Raise e => {| chunks := []; failure := Some e |}
  | Ok docs =>
      let context := format_docs docs in
      chain_stream (llm self) (prompt context query)
  end.

(** Lines 88-100. *)
Definition get_response (self : RAGPipeline) (query : string) : result string :=
  let processed_query := _query_understanding query in
  docs <- retrieve self processed_query 4 ;;
  let context := format_docs docs in
  chain_invoke (llm self) (prompt context query).

(** The module-level state: the singleton, and how many objects have been
    constructed so far (the next object's identity). *)
Record Globals : Type := {
  rag_pipeline : option RAGPipeline;
  instances : nat
}.

(** Lines 105-109. *)
Definition get_rag_pipeline (pf : Platform) (g : Globals) : result RAGPipeline * Globals :=
  match rag_pipeline g with
  | Some p => (Ok p, g)
  | None =>
      match RAGPipeline_init pf (instances g) with
      | Ok p => (Ok p, {| rag_pipeline := Some p; instances := S (instances g) |})
      | Raise e => (Raise e, g)
      end
  end.

End RagPipeline.

(** ** [main.py]: the request handlers and the process-wide statistics *)
Module Main.
Import Py.
Import RagPipeline.

(** The [stats] dict; its four keys are fixed. *)
Record Stats : Type := {
  total_queries : Z;
  avg_response_time : float;
  last_reindex_time : option string;
  index_status : string
}.

Definition initial_stats : Stats :=
  {| total_queries := 0; avg_response_time := 0%float;
     last_reindex_time := None; index_status := "Ready (Pinecone)" |}.

(** The state the handlers share: the globals of [rag_pipeline.py] and
    [stats]. *)
Record Process : Type := {
  globals : Globals;
  stats : Stats
}.

Record ChatRequest : Type := {
  message : string;
  stream_ : bool
}.

(** What a handler returns.  A [StreamingResponse] holds the generator
    [event_generator()], that is the variables its body captured. *)
Inductive response : Type :=
| JSONResponse (body : list (string * value))
| StreamingResponse (pipeline : RAGPipeline) (message : string) (start_time : float).

Definition count_query (st : Stats) : Stats :=
  {| total_queries := total_queries st + 1;
     avg_response_time := avg_response_time st;
     last_reindex_time := last_reindex_time st;
     index_status := index_status st |}.

(** [stats["avg_response_time"] = (stats["avg_response_time"] + duration) / 2]
    in double precision. *)
Definition record_duration (duration : float) (st : Stats) : Stats :=
  {| total_queries := total_queries st;
     avg_response_time := (avg_response_time st + duration) / 2;
     last_reindex_time := last_reindex_time st;
     index_status := index_status st |}.

Definition reindexed (now : string) (st : Stats) : Stats :=
  {| total_queries := total_queries st;
     avg_response_time := avg_response_time st;
     last_reindex_time := Some now;
     index_status := "Ready (Pinecone)" |}.

(** Lines 65-76.  The index builder runs first, inside the handler; its
    log is returned next to the handler's own result.  [now] is the text
    [time.strftime] gives. *)
Definition reindex {rt : InitializePinecone.Runtime}
  (sv : InitializePinecone.Services) (fs : InitializePinecone.FileSystem)
  (pf : Platform) (now : string) (s : Process)
  : result response * Process * list InitializePinecone.event :=
  let (success, log) := InitializePinecone.initialize_pinecone sv fs in
  if success then
    match RAGPipeline_init pf (instances (globals s)) with
    | Raise e => (Raise e, s, log)
    | Ok p =>
        (Ok (JSONResponse [("message", VStr "Pinecone index rebuilt successfully")]),
         {| globals := {| rag_pipeline := Some p;
                          instances := S (instances (globals s)) |};
            stats := reindexed now (stats s) |},
         log)
    end
  else (Raise (HTTPException 500 "Failed to rebuild Pinecone index"), s, log).

(** Lines 82-103: the handler of [POST /api/chat].  [t0] is the clock at
    line 84, [t1] the clock at line 101. *)
Definition chat (pf : Platform) (request : ChatRequest) (t0 t1 : float) (s : Process)
  : result response * Process :=
  let start_time := t0 in
  match get_rag_pipeline pf (globals s) with
  | (Raise e, g) => (Raise e, {| globals := g; stats := stats s |})
  | (Ok pipeline, g) =>
      let s1 := {| globals := g; stats := count_query (stats s) |} in
      if stream_ request then
        (Ok (StreamingResponse pipeline (message request) start_time), s1)
      else
        match get_response pipeline (message request) with
        | Raise e => (Raise e, s1)
        | Ok response =>
            let duration := (t1 - start_time)%float in
            (Ok (JSONResponse [("response", VStr response)]),
             {| globals := g; stats := record_duration duration (stats s1) |})
        end
  end.

(** Lines 90-96: the generator behind a streaming response, run until it is
    exhausted or raises; [t1] is the clock at line 95. *)
Definition event_generator (pipeline : RAGPipeline) (message : string)
  (start_time t1 : float) (s : Process) : stream * Process :=
  let body := get_response_stream pipeline message in
  match failure body with
  | Some _ => (body, s)
  | None =>
      let duration := (t1 - start_time)%float in
      (body, {| globals := globals s; stats := record_duration duration (stats s) |})
  end.

(** What the client of [POST /api/chat] receives. *)
Inductive reply : Type :=
| Json (body : list (string * value))
| Chunked (body : stream).

(** One whole request to [POST /api/chat]: the handler, then the server
    draining the generator of a streaming response. *)
Definition post_api_chat (pf : Platform) (request : ChatRequest) (t0 t1 : float)
  (s : Process) : result reply * Process :=
  match chat pf request t0 t1 s with
  | (Raise e, s1) => (Raise e, s1)
  | (Ok (JSONResponse body), s1) => (Ok (Json body), s1)
  | (Ok (StreamingResponse pipeline message start_time), s1) =>
      let (body, s2) := event_generator pipeline message start_time t1 s1 in
      (Ok (Chunked body), s2)
  end.

(** One message of the peer on [/ws/chat], with the clock readings of
    lines 112 and 120 during its turn. *)
Record turn : Type := {
  data : string;
  started : float;
  finished : float
}.

Inductive ws_event : Type :=
| Accepted
| Received (text : string)
| Sent (text : string)
| Closed.

(** Lines 111-121: one turn of the loop on the received text; the flag
    tells whether the turn ran to its end (line 121) or the stream raised. *)
Definition ws_turn (pipeline : RAGPipeline) (t : turn) (s : Process)
  : list ws_event * Process * bool :=
  let start_time := started t in
  let s1 := {| globals := globals s; stats := count_query (stats s) |} in
  let body := get_response_stream pipeline (data t) in
  let sent := map Sent (chunks body) in
  match failure body with
  | Some _ => (Received (data t) :: sent, s1, false)
  | None =>
      let duration := (finished t - start_time)%float in
      (Received (data t) :: sent ++ [Sent "[DONE]"],
       {| globals := globals s1; stats := record_duration duration (stats s1) |},
       true)
  end.

(** Lines 123-127: the two [except] clauses around the loop, for the
    exception that ended it.  A [WebSocketDisconnect] is only logged; any
    other exception is logged and the socket closed. *)
Definition except_clauses (raised : option exc) : list ws_event :=
  match raised with
  | Some WebSocketDisconnect | None => []
  | Some _ => [Closed]
  end.

(** Lines 109-127: the receive loop.  When the peer has no more messages
    [receive_text] raises [WebSocketDisconnect], which ends the handler; an
    exception raised while a message is answered ends it through the
    matching [except] clause.  Every [send_text] is taken to return. *)
Fixpoint ws_loop (pipeline : RAGPipeline) (turns : list turn) (s : Process)
  : list ws_event * Process :=
  match turns with
  | [] => ([], s)
  | t :: rest =>
      match ws_turn pipeline t s with
      | (evs, s1, true) =>
          let (evs', s2) := ws_loop pipeline rest s1 in (evs ++ evs', s2)
      | (evs, s1, false) =>
          (evs ++ except_clauses (failure (get_response_stream pipeline (data t))), s1)
      end
  end.

(** Lines 105-127. *)
Definition websocket_endpoint (pf : Platform) (turns : list turn) (s : Process)
  : result unit * list ws_event * Process :=
  match get_rag_pipeline pf (globals s) with
  | (Raise e, g) => (Raise e, [Accepted], {| globals := g; stats := stats s |})
  | (Ok pipeline, g) =>
      let (evs, s') := ws_loop pipeline turns {| globals := g; stats := stats s |} in
      (Ok tt, Accepted :: evs, s')
  end.

(** Lines 39-45: [GET /]. *)
Definition root : list (string * value) :=
  [("message", VStr "Portfolio RAG Backend is running");
   ("docs_url", VStr "/docs");
   ("health_check", VStr "/api/health")].

(** Lines 47-55: the startup hook.  [str_exc] is the text [str(e)] gives for
    an exception, [now] the text [time.strftime] gives. *)
Definition startup_event (str_exc : exc -> string) (pf : Platform) (now : string)
  (s : Process) : Process :=
  match get_rag_pipeline pf (globals s) with
  | (Ok _, g) => {| globals := g; stats := reindexed now (stats s) |}
  | (Raise e, g) =>
      {| globals := g;
         stats := {| total_queries := total_queries (stats s);
                     avg_response_time := avg_response_time (stats s);
                     last_reindex_time := last_reindex_time (stats s);
                     index_status := "Error: " ^^ str_exc e |} |}
  end.

(** Lines 57-63: [GET /api/health]; [timestamp] is the clock of line 62. *)
Definition health (timestamp : float) (s : Process) : list (string * value) :=
  [("status", VStr "healthy");
   ("index_status", VStr (index_status (stats s)));
   ("timestamp", VFloat timestamp)].

(** Lines 78-80: [GET /api/stats] returns the [stats] dict. *)
Definition get_stats (s : Process) : list (string * value) :=
  [("total_queries", VInt (total_queries (stats s)));
   ("avg_response_time", VFloat (avg_response_time (stats s)));
   ("last_reindex_time",
    match last_reindex_time (stats s) with Some text => VStr text | None => VNone end);
   ("index_status", VStr (index_status (stats s)))].

End Main.

(** ** Test doubles

    Concrete stand-ins for the runtime, the data directory, the hosted
    services and the chat model, on which the embedded functions run. *)
Module Doubles.
Import Py.
Import InitializePinecone.
Import RagPipeline.
Import Main.

Definition text_projects_7 : string := "{" ^^ dq ^^ "projects" ^^ dq ^^ ": 7}".

(** A parser that knows four texts and rejects everything else. *)
Definition parse (text : string) : option value :=
  if String.eqb text "{}" then Some (VDict [])
  else if String.eqb text "[1, 2]" then Some (VList [VInt 1; VInt 2])
  else if String.eqb text text_projects_7 then Some (VDict [("projects", VInt 7)])
  else None.

Definition dump (v : value) : string :=
  match v with
  | VDict [] => "{}"
  | _ => "<json>"
  end.

#[export] Instance runtime : Runtime :=
  {| json_load := parse; json_dumps_indent2 := dump; repr := fun _ => "<repr>" |}.

Definition profiles : list string :=
  ["p01.json"; "p02.json"; "p03.json"; "p04.json"; "p05.json"; "p06.json";
   "p07.json"; "p08.json"; "p09.json"; "p10.json"; "p11.json"; "p12.json"].

(** Twelve profile files holding an empty record, a malformed file, a text
    file, and a file whose [projects] entry is a number. *)
Definition data_dir : FileSystem :=
  {| exists_ := fun path => String.eqb path AGENT_DATA_DIR;
     listdir := fun _ => ["p01.json"; "broken.json"; "p02.json"; "notes.txt";
                          "p03.json"; "p04.json"; "projects.json"; "p05.json";
                          "p06.json"; "p07.json"; "p08.json"; "p09.json";
                          "p10.json"; "p11.json"; "p12.json"];
     read_text := fun path =>
       if String.eqb path (path_join AGENT_DATA_DIR "broken.json") then Some "{oops"
       else if String.eqb path (path_join AGENT_DATA_DIR "projects.json")
       then Some text_projects_7
       else if String.eqb path (path_join AGENT_DATA_DIR "notes.txt") then Some "hello"
       else Some "{}" |}.

(** A directory with a single file whose top-level value is a list. *)
Definition list_dir : FileSystem :=
  {| exists_ := fun _ => true;
     listdir := fun _ => ["list.json"];
     read_text := fun _ => Some "[1, 2]" |}.

(** Services that answer every call, for an index of dimension [dim], except
    that the upload of the batch at offset 5 raises. *)
Definition services (dim : Z) : Services :=
  {| PINECONE_API_KEY := Some "pc-key";
     PINECONE_INDEX_NAME := "greyfang";
     Pinecone := Ok tt;
     list_indexes := Ok ["other"; "greyfang"];
     describe_index_stats := Ok (Some dim);
     PineconeEmbeddings := Ok tt;
     from_documents := fun i _ =>
       if Nat.eqb i 5 then Raise (ServiceError "timeout") else Ok tt;
     from_existing_index := Ok tt;
     InitializePinecone.similarity_search := fun _ _ => Ok [];
     final_index_stats := Ok tt |}.

(** Services without an API key. *)
Definition no_key : Services :=
  {| PINECONE_API_KEY := None;
     PINECONE_INDEX_NAME := "greyfang";
     Pinecone := Ok tt;
     list_indexes := Ok ["greyfang"];
     describe_index_stats := Ok (Some 1024%Z);
     PineconeEmbeddings := Ok tt;
     from_documents := fun _ _ => Ok tt;
     from_existing_index := Ok tt;
     InitializePinecone.similarity_search := fun _ _ => Ok [];
     final_index_stats := Ok tt |}.

(** A chat model that answers every prompt with the same three fragments. *)
Definition model : ChatModel :=
  {| chain_stream := fun _ => {| chunks := ["Hi"; ", I am "; "Hammad"]; failure := None |};
     chain_invoke := fun _ => Ok "Hi, I am Hammad" |}.

Definition store : VectorStore :=
  {| RagPipeline.similarity_search := fun _ _ =>
       Ok [{| page_content := "Name: Hammad"; metadata := [] |}] |}.

Definition platform : Platform :=
  {| getenv_PINECONE_API_KEY := Some "pc-key";
     getenv_PINECONE_INDEX_NAME := None;
     new_PineconeEmbeddings := Ok tt;
     new_ChatGroq := Ok model;
     new_PineconeVectorStore := fun _ => Ok store |}.

Definition pipeline0 : RAGPipeline :=
  {| ident := 0; api_key := Some "pc-key"; llm := model;
     index_name := "greyfang"; vectorstore := store |}.

(** A process whose singleton has been created. *)
Definition running : Process :=
  {| globals := {| rag_pipeline := Some pipeline0; instances := 1 |};
     stats := initial_stats |}.

(** A process before its first request. *)
Definition fresh_process : Process :=
  {| globals := {| rag_pipeline := None; instances := 0 |};
     stats := initial_stats |}.

(** A record with a name and three project entries: a named one, a string,
    and one without a name. *)
Definition portfolio : list (string * value) :=
  [("name", VStr "Hammad");
   ("projects",
    VList [VDict [("name", VStr "RAG bot"); ("description", VStr "chat")];
           VStr "draft";
           VDict [("description", VStr "unnamed")]])].

(** A machine without the data directory. *)
Definition no_dir : FileSystem :=
  {| exists_ := fun _ => false;
     listdir := fun _ => [];
     read_text := fun _ => None |}.

(** Services that answer every call, for an index of dimension 1024. *)
Definition steady : Services :=
  {| PINECONE_API_KEY := Some "pc-key";
     PINECONE_INDEX_NAME := "greyfang";
     Pinecone := Ok tt;
     list_indexes := Ok ["other"; "greyfang"];
     describe_index_stats := Ok (Some 1024%Z);
     PineconeEmbeddings := Ok tt;
     from_documents := fun _ _ => Ok tt;
     from_existing_index := Ok tt;
     InitializePinecone.similarity_search := fun _ _ => Ok [];
     final_index_stats := Ok tt |}.

(** A pipeline whose vector store cannot be reached. *)
Definition pipeline_down : RAGPipeline :=
  {| ident := 0; api_key := Some "pc-key"; llm := model; index_name := "greyfang";
     vectorstore := {| RagPipeline.similarity_search := fun _ _ =>
                         Raise (ServiceError "unreachable") |} |}.

(** A platform on which the vector-store handle cannot be created. *)
Definition platform_down : Platform :=
  {| getenv_PINECONE_API_KEY := Some "pc-key";
     getenv_PINECONE_INDEX_NAME := None;
     new_PineconeEmbeddings := Ok tt;
     new_ChatGroq := Ok model;
     new_PineconeVectorStore := fun _ => Raise (ServiceError "unreachable") |}.

(** The text of an exception, as far as the doubles raise any. *)
Definition message_of (e : exc) : string :=
  match e with
  | ServiceError msg => msg
  | HTTPException _ detail => detail
  | _ => "error"
  end.

(** A pipeline whose retrieval raises for the query [crash] only. *)
Definition pipeline_flaky : RAGPipeline :=
  {| ident := 0; api_key := Some "pc-key"; llm := model; index_name := "greyfang";
     vectorstore := {| RagPipeline.similarity_search := fun query _ =>
                         if String.eqb query "crash"
                         then Raise (ServiceError "unreachable")
                         else Ok [] |} |}.

(** A process whose singleton is the given pipeline. *)
Definition running_with (p : RAGPipeline) : Process :=
  {| globals := {| rag_pipeline := Some p; instances := 1 |};
     stats := initial_stats |}.

(** A pipeline whose answer ends in a [WebSocketDisconnect] after one
    fragment. *)
Definition pipeline_hangup : RAGPipeline :=
  {| ident := 0; api_key := Some "pc-key";
     llm := {| chain_stream := fun _ =>
                 {| chunks := ["Hi"]; failure := Some WebSocketDisconnect |};
               chain_invoke := fun _ => Raise WebSocketDisconnect |};
     index_name := "greyfang"; vectorstore := store |}.

End Doubles.

(** ** Vocabulary of the properties *)
Module Vocabulary.
Import Py InitializePinecone RagPipeline Main.

(** Every check of lines 107-181 passes: the key is set, the client and the
    embedding service can be created, the named index is listed and reports
    dimension 1024. *)
Definition checks_pass (sv : Services) : bool :=
  negb (key_missing (PINECONE_API_KEY sv))
  && is_ok (Pinecone sv)
  && match list_indexes sv with
     | Ok names => existsb (String.eqb (PINECONE_INDEX_NAME sv)) names
     | Raise _ => false
     end
  && match describe_index_stats sv with
     | Ok dimension => dimension_is_1024 dimension
     | Raise _ => false
     end
  && is_ok (PineconeEmbeddings sv).

(** The batch the upload loop cuts at offset [i]. *)
Definition batch_at (documents : list Document) (i : nat) : list Document :=
  slice i (i + batch_size) documents.

(** The offsets the upload loop visits. *)
Definition offsets (documents : list Document) : list nat :=
  range 0 (List.length documents) batch_size.

(** The [source] entry of a Document's metadata. *)
Definition source_of (doc : Document) : option value :=
  lookup "source" (metadata doc).



(** A directory entry the loader gets a Document from: its name ends in
    [.json] and nothing raises while it is opened, parsed and converted. *)
Definition loads_cleanly {rt : Runtime} (fs : FileSystem) (filename : string) : bool :=
  endswith filename ".json" && is_ok (load_file fs filename).

(** None of the four recognized sections is a key of the record. *)
Definition no_section (d : list (string * value)) : bool :=
  negb (contains "personal_profile" d)
  && negb (contains "professional_experience" d)
  && negb (contains "projects" d)
  && negb (contains "skills" d).

(** The chain answers a prompt the same way in both modes: when
    [chain.invoke] returns a text, [chain.stream] runs to its end and its
    fragments make up that text. *)
Definition same_response (m : ChatModel) : Prop :=
  forall prompt_text text,
    chain_invoke m prompt_text = Ok text ->
    failure (chain_stream m prompt_text) = None
    /\ String.concat "" (chunks (chain_stream m prompt_text)) = text.

(** A reply that reached the client whole. *)
Definition completed (r : reply) : Prop :=
  match r with
  | Json _ => True
  | Chunked body => failure body = None
  end.

(** One request measured from [t0] to [t1] has been counted. *)
Definition counted (t0 t1 : float) (before after : Stats) : Prop :=
  total_queries after = (total_queries before + 1)%Z
  /\ avg_response_time after
     = ((avg_response_time before + (t1 - t0)) / 2)%float.

(** What the socket carries for one turn that runs to its end. *)
Definition turn_frames (p : RAGPipeline) (t : turn) : list ws_event :=
  Received (data t)
    :: map Sent (chunks (get_response_stream p (data t))) ++ [Sent "[DONE]"].

(** C9 as stated, for a connection served from [s]: whatever the messages,
    the socket carries for each of them, in order, the received text, the
    fragments of its answer and one [[DONE]] frame. *)
Definition every_message_ends_with_done (pf : Platform) (turns : list turn) (s : Process)
  : Prop :=
  forall p g,
    get_rag_pipeline pf (globals s) = (Ok p, g) ->
    snd (fst (websocket_endpoint pf turns s))
    = Accepted :: flat_map (turn_frames p) turns.

(** The singleton has been discarded and is left for the next
    [get_rag_pipeline()] to create: the slot is empty and no object has
    been constructed. *)
Definition recreated_lazily (before after : Globals) : Prop :=
  rag_pipeline after = None /\ instances after = instances before.

(** C3 as stated, for a handler run from [s]. *)
Definition reindex_recreates_lazily {rt : Runtime} (sv : Services) (fs : FileSystem)
  (pf : Platform) (now : string) (s : Process) : Prop :=
  match reindex sv fs pf now s with
  | (r, s', _) =>
      if fst (initialize_pinecone sv fs)
      then recreated_lazily (globals s) (globals s')
      else r = Raise (HTTPException 500 "Failed to rebuild Pinecone index")
  end.

(** *** Shapes of parsed records *)

(** [for x in v] does not raise. *)
Definition iterable (v : value) : bool :=
  match v with
  | VList _ | VDict _ | VStr _ => true
  | _ => false
  end.

Definition is_str (v : value) : bool :=
  match v with VStr _ => true | _ => false end.

(** A [personal_profile] the loader can read: a dict whose [contact], when
    present, is a dict. *)
Definition profile_ok (info : value) : bool :=
  match info with
  | VDict d =>
      match dict_get d "contact" (VDict []) with
      | VDict _ => true
      | _ => false
      end
  | _ => false
  end.

(** An experience entry the loader can read: anything that is not a dict,
    a dict without both a role and a company, or one whose [achievements],
    when present, can be iterated. *)
Definition experience_ok (exp : value) : bool :=
  match exp with
  | VDict d =>
      if truthy (dict_get d "role" (VStr "")) && truthy (dict_get d "company" (VStr ""))
      then iterable (dict_get d "achievements" (VList []))
      else true
  | _ => true
  end.

(** An item of [skills] the loader can read: its value is not a list, or a
    list of strings. *)
Definition skills_item_ok (item : string * value) : bool :=
  match snd item with
  | VList skills => forallb is_str skills
  | _ => true
  end.

Definition sections_ok (d : list (string * value)) : bool :=
  (if contains "personal_profile" d
   then profile_ok (dict_get d "personal_profile" VNone) else true)
  && (if contains "professional_experience" d
      then match iterate (dict_get d "professional_experience" VNone) with
           | Ok entries => forallb experience_ok entries
           | Raise _ => false
           end
      else true)
  && (if contains "projects" d
      then iterable (dict_get d "projects" VNone) else true)
  && (if contains "skills" d
      then match dict_get d "skills" VNone with
           | VDict items => forallb skills_item_ok items
           | _ => true
           end
      else true).

(** The parsed values the loader turns into a Document. *)
Definition processable (data : value) : bool :=
  match data with
  | VDict d => sections_ok d
  | _ => false
  end.

(** A directory entry holds a record the loader can read: its name ends in
    [.json], its text can be read and parses to a dict, and the sections of
    the dict have the shapes the extraction reads. *)
Definition readable_record {rt : Runtime} (fs : FileSystem) (filename : string) : bool :=
  endswith filename ".json"
  && match read_text fs (path_join AGENT_DATA_DIR filename) with
     | Some text =>
         match json_load text with
         | Some (VDict d) => sections_ok d
         | _ => false
         end
     | None => false
     end.


(** A project entry that gets a line: a dict with a truthy [name]. *)
Definition named_project (proj : value) : bool :=
  match proj with
  | VDict d => truthy (dict_get d "name" (VStr ""))
  | _ => false
  end.

(** The line a named project gets. *)
Definition project_line {rt : Runtime} (proj : value) : string :=
  match proj with
  | VDict d =>
      "- " ^^ fmt (dict_get d "name" (VStr "")) ^^ ": "
           ^^ fmt (dict_get d "description" (VStr ""))
  | _ => ""
  end.

(** The later list is the earlier one followed by non-empty lines. *)
Definition extends (acc acc' : list string) : Prop :=
  exists extra, acc' = acc ++ extra /\ Forall (fun line => line <> "") extra.

(** A filename stem without a dot. *)
Definition dotless (stem : string) : bool :=
  forallb (fun c => negb (Ascii.eqb c ".")) (list_ascii_of_string stem).

(** *** Vocabulary of the index builder's log *)

(** Seconds spent in [time.sleep]. *)
Fixpoint slept (log : list event) : nat :=
  match log with
  | [] => 0
  | Sleep seconds :: rest => seconds + slept rest
  | _ :: rest => slept rest
  end.

(** An event of the checks: nothing is embedded, uploaded or waited for. *)
Definition is_check (e : event) : bool :=
  match e with
  | ClientCreated | IndexesListed | StatsRead | DocumentsLoaded _ => true
  | _ => false
  end.

(** Every sleep of the log lasts two seconds and comes right after an
    upload that returned; [after_upload] tells whether the log continues
    one. *)
Fixpoint sleeps_follow_uploads (after_upload : bool) (log : list event) : bool :=
  match log with
  | [] => true
  | Sleep seconds :: rest =>
      after_upload && Nat.eqb seconds 2 && sleeps_follow_uploads false rest
  | Upload _ succeeded :: rest => sleeps_follow_uploads succeeded rest
  | _ :: rest => sleeps_follow_uploads false rest
  end.

(** The batch at offset [i] was uploaded and is not the last one. *)
Definition uploaded_before_last {rt : Runtime} (sv : Services) (documents : list Document)
  (i : nat) : bool :=
  is_ok (from_documents sv i (batch_at documents i))
  && (i + batch_size <? List.length documents).

(** The services with other answers to the three calls of the final
    verification. *)
Definition with_verification (sv : Services) (opened : result unit)
  (search : string -> nat -> result (list Document)) (final : result unit) : Services :=
  {| PINECONE_API_KEY := PINECONE_API_KEY sv;
     PINECONE_INDEX_NAME := PINECONE_INDEX_NAME sv;
     Pinecone := Pinecone sv;
     list_indexes := list_indexes sv;
     describe_index_stats := describe_index_stats sv;
     PineconeEmbeddings := PineconeEmbeddings sv;
     from_documents := from_documents sv;
     from_existing_index := opened;
     InitializePinecone.similarity_search := search;
     final_index_stats := final |}.

(** *** Vocabulary of the process state *)

(** The pipeline with another vector-store handle. *)
Definition with_store (p : RAGPipeline) (vs : VectorStore) : RAGPipeline :=
  {| ident := ident p; api_key := api_key p; llm := llm p;
     index_name := index_name p; vectorstore := vs |}.

(** The text messages seen in a socket trace. *)
Fixpoint received (frames : list ws_event) : nat :=
  match frames with
  | [] => 0
  | Received _ :: rest => S (received rest)
  | _ :: rest => received rest
  end.

End Vocabulary.

(** * Properties *)

Import Py InitializePinecone RagPipeline Main Vocabulary.

(** ** The built-ins on small inputs *)

Example replace_all_occurrences : Py.replace ".json" "" "a.json.json.x" = "a.x".
Proof. reflexivity. Qed.

Example endswith_json :
  Py.endswith "profile.json" ".json" = true /\ Py.endswith "json" ".json" = false.
Proof. split; reflexivity. Qed.

Example range_0_12_5 : Py.range 0 12 5 = [0; 5; 10].
Proof. reflexivity. Qed.

Example slice_past_the_end : Py.slice 10 15 [0;1;2;3;4;5;6;7;8;9;10;11] = [10; 11].
Proof. reflexivity. Qed.

(** ** Python's [range] and slices, as the upload loop uses them *)
Section Batches.
Variable A : Type.
Implicit Types (l : list A) (i n : nat).

Lemma range_step start stop k :
  range start stop (S k)
  = if lt_dec start stop then start :: range (start + S k) stop (S k) else [].
Proof. simp range. destruct (lt_dec start stop); simpl; simp range; reflexivity. Qed.

Lemma slice_length l i j : List.length (slice i j l) = Nat.min (j - i) (List.length l - i).
Proof. unfold slice. rewrite length_firstn, length_skipn. reflexivity. Qed.

(** The slices cut at the offsets of [range i n step] are the list from
    position [i] on. *)
Lemma slices_cover l k : forall m i,
  List.length l - i <= m ->
  List.concat (map (fun j => slice j (j + S k) l) (range i (List.length l) (S k)))
  = skipn i l.
Proof.
  induction m as [| m IH]; intros i Hm; rewrite range_step;
    destruct (lt_dec i (List.length l)) as [Hlt | Hge]; try lia.
  - simpl. symmetry. apply skipn_all2. lia.
  - simpl. rewrite IH by lia.
    unfold slice. replace (i + S k - i) with (S k) by lia.
    replace (i + S k) with (S k + i) by lia.
    rewrite <- skipn_skipn. apply firstn_skipn.
  - simpl. symmetry. apply skipn_all2. lia.
Qed.

Lemma range_length_5 : forall m i n,
  n - i <= m -> List.length (range i n 5) = (n - i + 4) / 5.
Proof.
  induction m as [| m IH]; intros i n Hm; rewrite range_step;
    destruct (lt_dec i n) as [Hlt | Hge]; try lia.
  - simpl. replace (n - i + 4) with 4 by lia. reflexivity.
  - simpl List.length. rewrite IH by lia.
    destruct (le_lt_dec 5 (n - i)) as [Hbig | Hsmall].
    + replace (n - i + 4) with ((n - (i + 5) + 4) + 1 * 5) by lia.
      rewrite Nat.div_add by lia. lia.
    + replace (n - (i + 5) + 4) with 4 by lia.
      assert (H1 : (n - i + 4) / 5 = 1).
      { symmetry. apply Nat.div_unique with (r := n - i - 1); lia. }
      rewrite H1. reflexivity.
  - simpl. replace (n - i + 4) with 4 by lia. reflexivity.
Qed.

End Batches.

Lemma range_below k : forall m i n j,
  n - i <= m -> In j (range i n (S k)) -> j < n.
Proof.
  induction m as [| m IH]; intros i n j Hm; rewrite range_step;
    destruct (lt_dec i n) as [Hlt | Hge]; simpl; try lia; try tauto.
  intros [<- | Hin]; [assumption |]. apply (IH (i + S k)); [lia | assumption].
Qed.

(** ** The document loader *)
Section DocumentLoader.
Context {rt : Runtime}.
Variable fs : FileSystem.

(** A record without any of the four sections produces no text. *)
Lemma extract_sections_none (d : list (string * value)) :
  no_section d = true -> extract_sections d = Ok [].
Proof.
  unfold no_section, extract_sections. intros H.
  repeat (apply andb_prop in H; destruct H as [H ?]).
  repeat match goal with
         | Hn : negb _ = true |- _ => apply negb_true_iff in Hn; rewrite Hn
         end.
  reflexivity.
Qed.

(** The fallback on a dict: the content is [json.dumps(data, indent=2)],
    the metadata carry the filename, the type tag and the display name. *)
Lemma fallback_document_of_object (filename : string) (d : list (string * value)) :
  no_section d = true ->
  document_of filename (VDict d)
  = Ok {| page_content := json_dumps_indent2 (VDict d);
          metadata := [("source", VStr filename);
                       ("type", VStr "portfolio_data");
                       ("name", dict_get d "name" (VStr (replace ".json" "" filename)))] |}.
Proof.
  intros H. unfold document_of. rewrite (extract_sections_none _ H). reflexivity.
Qed.

(** A parsed value that is not a dict never becomes a Document: the
    metadata call [data.get] raises. *)
Lemma document_of_non_dict (filename : string) (data : value) :
  (forall d, data <> VDict d) -> document_of filename data = Raise AttributeError.
Proof.
  intros Hnot. destruct data; try reflexivity. exfalso. eapply Hnot. reflexivity.
Qed.


(** The loop over the directory entries keeps what it has and appends the
    Documents of the entries that load cleanly. *)
Lemma load_loop (entries : list string) :
  forall (documents : list Document) (files : list string),
    Forall2 (fun doc f => load_file fs f = Ok doc) documents files ->
    Forall2 (fun doc f => load_file fs f = Ok doc)
            (fold_left (load_entry fs) entries documents)
            (files ++ filter (loads_cleanly fs) entries).
Proof.
  induction entries as [| f entries IH]; intros documents files Hacc; simpl.
  - rewrite app_nil_r. assumption.
  - unfold load_entry at 2. unfold loads_cleanly at 1.
    destruct (endswith f ".json"); simpl; [| apply IH; assumption].
    destruct (load_file fs f) as [doc |] eqn:Hload; simpl; [| apply IH; assumption].
    replace (files ++ f :: filter (loads_cleanly fs) entries)
      with ((files ++ [f]) ++ filter (loads_cleanly fs) entries)
      by (rewrite <- app_assoc; reflexivity).
    apply IH. apply Forall2_app; [assumption |]. constructor; [assumption | constructor].
Qed.

End DocumentLoader.

(** The directory of the doubles: the twelve profiles load, the malformed
    file, the text file and the file with a numeric [projects] do not. *)
Example data_dir_documents :
  map source_of (load_json_data (rt := Doubles.runtime) Doubles.data_dir)
  = map (fun f => Some (VStr f)) Doubles.profiles.
Proof. vm_compute. reflexivity. Qed.


(** C6 at a file whose top-level value is a list: the text parses, the
    fallback serializes it, then [data.get] raises and the loader returns
    no Document for the file. *)
Theorem list_file_yields_no_document :
  json_load (Runtime := Doubles.runtime) "[1, 2]" = Some (VList [VInt 1; VInt 2])
  /\ document_of (rt := Doubles.runtime) "list.json" (VList [VInt 1; VInt 2])
     = Raise AttributeError
  /\ load_json_data (rt := Doubles.runtime) Doubles.list_dir = [].
Proof. repeat split; reflexivity. Qed.

(** ** The index builder *)
Section IndexBuilder.
Context {rt : Runtime}.
Variables (sv : Services) (fs : FileSystem).

Lemma uploads_app (a b : list event) : uploads (a ++ b) = uploads a ++ uploads b.
Proof.
  induction a as [| e a IH]; [reflexivity |].
  destruct e; simpl; rewrite IH; reflexivity.
Qed.

Lemma uploaded_app (a b : list event) : uploaded (a ++ b) = uploaded a ++ uploaded b.
Proof.
  induction a as [| e a IH]; [reflexivity |].
  destruct e as [| | | | | batch [|] | | | |]; simpl; rewrite IH; reflexivity.
Qed.

Lemma smoke_tests_quiet (queries : list string) :
  Forall (fun e => is_upload e = false) (fst (smoke_tests sv queries)).
Proof.
  induction queries as [| q rest IH]; simpl; [constructor |].
  destruct (InitializePinecone.similarity_search sv q 1).
  - destruct (smoke_tests sv rest) as [evs done]. simpl in *.
    constructor; [reflexivity | assumption].
  - repeat constructor.
Qed.

Lemma quiet_uploads (log : list event) :
  Forall (fun e => is_upload e = false) log -> uploads log = [] /\ uploaded log = [].
Proof.
  induction 1 as [| e log He _ [IH1 IH2]]; [split; reflexivity |].
  destruct e; simpl in *; try discriminate; auto.
Qed.

(** The final verification never writes. *)
Lemma final_verification_quiet :
  Forall (fun e => is_upload e = false) (final_verification sv).
Proof.
  unfold final_verification.
  destruct (from_existing_index sv); [| constructor].
  pose proof (smoke_tests_quiet test_queries) as Hq.
  destruct (smoke_tests sv test_queries) as [evs done]. simpl in Hq.
  constructor; [reflexivity |].
  apply Forall_app. split; [assumption |].
  destruct done; [destruct (final_index_stats sv) |]; repeat constructor.
Qed.

Lemma upload_batch_app (documents : list Document) (n : nat) (log : list event) (i : nat) :
  upload_batch sv documents n log i = log ++ upload_batch sv documents n [] i.
Proof.
  unfold upload_batch. destruct (from_documents sv i _); simpl.
  - rewrite <- app_assoc. reflexivity.
  - reflexivity.
Qed.

(** The upload loop appends one record per offset, whatever the earlier
    uploads did. *)
Lemma upload_loop_log (documents : list Document) (n : nat) (l : list nat) :
  forall log,
    fold_left (upload_batch sv documents n) l log
    = log ++ flat_map (upload_batch sv documents n []) l.
Proof.
  induction l as [| i l IH]; intros log; simpl.
  - rewrite app_nil_r. reflexivity.
  - rewrite IH, upload_batch_app, <- app_assoc. reflexivity.
Qed.

Lemma uploads_of_loop (documents : list Document) (n : nat) (l : list nat) :
  uploads (flat_map (upload_batch sv documents n []) l) = map (batch_at documents) l.
Proof.
  induction l as [| i l IH]; [reflexivity |].
  simpl. rewrite uploads_app, IH. f_equal.
  unfold upload_batch, batch_at.
  destruct (from_documents sv i _); [destruct (_ <? _) |]; reflexivity.
Qed.

Lemma uploaded_of_loop (documents : list Document) (n : nat) (l : list nat) :
  uploaded (flat_map (upload_batch sv documents n []) l)
  = map (batch_at documents)
        (filter (fun i => is_ok (from_documents sv i (batch_at documents i))) l).
Proof.
  induction l as [| i l IH]; [reflexivity |].
  simpl. rewrite uploaded_app, IH.
  unfold upload_batch, batch_at.
  destruct (from_documents sv i _); [destruct (_ <? _) |]; reflexivity.
Qed.

(** A run whose checks pass and that finds documents: its result and log. *)
Lemma run_when_ready :
  checks_pass sv = true ->
  load_json_data fs <> [] ->
  initialize_pinecone sv fs
  = (true,
     ([ClientCreated; IndexesListed; StatsRead;
       DocumentsLoaded (List.length (load_json_data fs)); EmbeddingsCreated]
        ++ flat_map (upload_batch sv (load_json_data fs)
                                  (List.length (load_json_data fs)) [])
                    (offsets (load_json_data fs)))
       ++ final_verification sv).
Proof.
  unfold checks_pass, initialize_pinecone, offsets. intros Hready Hdocs.
  repeat (apply andb_prop in Hready; destruct Hready as [Hready ?]).
  apply negb_true_iff in Hready. rewrite Hready.
  destruct (Pinecone sv); [| discriminate].
  destruct (list_indexes sv) as [names |]; [| discriminate].
  match goal with H : existsb _ _ = true |- _ => rewrite H end.
  destruct (describe_index_stats sv) as [dimension |]; [| discriminate].
  match goal with H : dimension_is_1024 _ = true |- _ => rewrite H end.
  simpl negb. cbv iota.
  destruct (load_json_data fs) as [| d ds] eqn:Eload; [congruence |].
  destruct (PineconeEmbeddings sv); [| discriminate].
  rewrite upload_loop_log. reflexivity.
Qed.

(** C2: when the named index is listed but its statistics report a dimension
    other than 1024, the run returns [False] and its log holds neither the
    loading of the documents nor any upload. *)
Theorem dimension_mismatch_refuses_to_write (names : list string) (dimension : option Z) :
  list_indexes sv = Ok names ->
  In (PINECONE_INDEX_NAME sv) names ->
  describe_index_stats sv = Ok dimension ->
  dimension <> Some 1024%Z ->
  fst (initialize_pinecone sv fs) = false
  /\ Forall (fun e => is_load e = false /\ is_upload e = false)
            (snd (initialize_pinecone sv fs)).
Proof.
  intros Hlist Hin Hstats Hdim. unfold initialize_pinecone.
  destruct (key_missing _); [split; [reflexivity | constructor] |].
  destruct (Pinecone sv); [| split; [reflexivity | constructor]].
  rewrite Hlist, Hstats.
  assert (Hfound : existsb (String.eqb (PINECONE_INDEX_NAME sv)) names = true).
  { apply existsb_exists. exists (PINECONE_INDEX_NAME sv).
    split; [assumption | apply String.eqb_refl]. }
  assert (Hno : dimension_is_1024 dimension = false).
  { destruct dimension as [d |]; [| reflexivity]. simpl.
    apply Z.eqb_neq. congruence. }
  rewrite Hfound, Hno. simpl.
  split; [reflexivity | repeat constructor].
Qed.

(** What a run whose checks pass hands to the upload call, and what of it
    is uploaded. *)
Lemma uploads_of_run :
  checks_pass sv = true ->
  load_json_data fs <> [] ->
  uploads (snd (initialize_pinecone sv fs))
  = map (batch_at (load_json_data fs)) (offsets (load_json_data fs))
  /\ uploaded (snd (initialize_pinecone sv fs))
     = map (batch_at (load_json_data fs))
           (filter (fun i => is_ok (from_documents sv i (batch_at (load_json_data fs) i)))
                   (offsets (load_json_data fs))).
Proof.
  intros Hready Hdocs. rewrite (run_when_ready Hready Hdocs).
  destruct (quiet_uploads final_verification_quiet) as [Hq1 Hq2].
  unfold snd.
  rewrite !uploads_app, !uploaded_app, Hq1, Hq2, !app_nil_r.
  rewrite uploads_of_loop, uploaded_of_loop. simpl. auto.
Qed.

(** C4: whichever upload calls raise, a run whose checks pass attempts the
    upload of every batch, in order; the batches whose call returned are
    uploaded; and the run returns [True]. *)
Theorem failed_batch_does_not_stop_the_run :
  checks_pass sv = true ->
  load_json_data fs <> [] ->
  let documents := load_json_data fs in
  let run := initialize_pinecone sv fs in
  fst run = true
  /\ uploads (snd run) = map (batch_at documents) (offsets documents)
  /\ uploaded (snd run)
     = map (batch_at documents)
           (filter (fun i => is_ok (from_documents sv i (batch_at documents i)))
                   (offsets documents)).
Proof.
  intros Hready Hdocs. cbv zeta.
  destruct (uploads_of_run Hready Hdocs) as [Hall Hdone].
  rewrite Hall, Hdone, (run_when_ready Hready Hdocs). auto.
Qed.

(** C5: a run whose checks pass cuts the [n] loaded documents, in order,
    into [ceil(n/5)] batches of one to five documents; twelve documents
    give batches of 5, 5 and 2. *)
Theorem documents_are_uploaded_in_batches_of_five :
  checks_pass sv = true ->
  load_json_data fs <> [] ->
  let documents := load_json_data fs in
  let n := List.length documents in
  let batches := uploads (snd (initialize_pinecone sv fs)) in
  List.concat batches = documents
  /\ List.length batches = (n + 4) / 5
  /\ (n <= 5 * List.length batches < n + 5)
  /\ Forall (fun batch => 1 <= List.length batch <= 5) batches
  /\ (n = 12 -> map (@List.length Document) batches = [5; 5; 2]).
Proof.
  intros Hready Hdocs. cbv zeta.
  destruct (uploads_of_run Hready Hdocs) as [Hup _].
  rewrite Hup. unfold offsets, batch_at, batch_size.
  set (documents := load_json_data fs).
  assert (Hlen : List.length (range 0 (List.length documents) 5)
                 = (List.length documents + 4) / 5).
  { rewrite (@range_length_5 (List.length documents)) by lia.
    rewrite Nat.sub_0_r. reflexivity. }
  repeat split.
  - rewrite (@slices_cover _ documents 4 (List.length documents)) by lia. reflexivity.
  - rewrite length_map. exact Hlen.
  - rewrite length_map, Hlen.
    pose proof (Nat.div_mod_eq (List.length documents + 4) 5).
    pose proof (Nat.mod_upper_bound (List.length documents + 4) 5). lia.
  - rewrite length_map, Hlen.
    pose proof (Nat.div_mod_eq (List.length documents + 4) 5).
    pose proof (Nat.mod_upper_bound (List.length documents + 4) 5). lia.
  - apply Forall_forall. intros batch Hin.
    apply in_map_iff in Hin. destruct Hin as [i [<- Hi]].
    apply (@range_below 4 (List.length documents)) in Hi; [| lia].
    cbv beta. rewrite slice_length. lia.
  - intros H12. rewrite map_map, H12.
    change (range 0 12 5) with [0; 5; 10]. simpl map.
    rewrite !slice_length, H12. reflexivity.
Qed.

End IndexBuilder.

Lemma dimension_mismatch_refuses_to_write_witness :
  fst (initialize_pinecone (rt := Doubles.runtime) (Doubles.services 768) Doubles.data_dir)
  = false
  /\ Forall (fun e => is_load e = false /\ is_upload e = false)
            (snd (initialize_pinecone (rt := Doubles.runtime) (Doubles.services 768)
                                      Doubles.data_dir)).
Proof.
  apply (dimension_mismatch_refuses_to_write (rt := Doubles.runtime)
           (Doubles.services 768) Doubles.data_dir
           (names := ["other"; "greyfang"]) (dimension := Some 768%Z)).
  - reflexivity.
  - simpl. auto.
  - reflexivity.
  - discriminate.
Defined.

(** The run on the index of dimension 768 stops right after reading the
    statistics. *)
Example dimension_768_log :
  initialize_pinecone (rt := Doubles.runtime) (Doubles.services 768) Doubles.data_dir
  = (false, [ClientCreated; IndexesListed; StatsRead]).
Proof. reflexivity. Qed.

Lemma failed_batch_does_not_stop_the_run_witness :
  let documents := load_json_data (rt := Doubles.runtime) Doubles.data_dir in
  let run := initialize_pinecone (rt := Doubles.runtime) (Doubles.services 1024)
                                 Doubles.data_dir in
  fst run = true
  /\ uploads (snd run) = map (batch_at documents) (offsets documents)
  /\ uploaded (snd run)
     = map (batch_at documents)
           (filter (fun i => is_ok (from_documents (Doubles.services 1024) i
                                                   (batch_at documents i)))
                   (offsets documents)).
Proof.
  apply (failed_batch_does_not_stop_the_run (rt := Doubles.runtime)
           (Doubles.services 1024) Doubles.data_dir).
  - reflexivity.
  - vm_compute. discriminate.
Defined.

(** Twelve documents, three batches, the second upload raises: the first
    and the third batch are uploaded and the run returns [True]. *)
Example second_of_three_batches_fails :
  let run := initialize_pinecone (rt := Doubles.runtime) (Doubles.services 1024)
                                 Doubles.data_dir in
  fst run = true
  /\ map (@List.length Document) (uploads (snd run)) = [5; 5; 2]
  /\ uploaded (snd run)
     = [batch_at (load_json_data (rt := Doubles.runtime) Doubles.data_dir) 0;
        batch_at (load_json_data (rt := Doubles.runtime) Doubles.data_dir) 10].
Proof. vm_compute. auto. Qed.

Lemma documents_are_uploaded_in_batches_of_five_witness :
  let documents := load_json_data (rt := Doubles.runtime) Doubles.data_dir in
  let n := List.length documents in
  let batches := uploads (snd (initialize_pinecone (rt := Doubles.runtime)
                                 (Doubles.services 1024) Doubles.data_dir)) in
  List.concat batches = documents
  /\ List.length batches = (n + 4) / 5
  /\ (n <= 5 * List.length batches < n + 5)
  /\ Forall (fun batch => 1 <= List.length batch <= 5) batches
  /\ (n = 12 -> map (@List.length Document) batches = [5; 5; 2]).
Proof.
  apply (documents_are_uploaded_in_batches_of_five (rt := Doubles.runtime)
           (Doubles.services 1024) Doubles.data_dir).
  - reflexivity.
  - vm_compute. discriminate.
Defined.

(** ** The reindex handler *)
Section Reindex.
Context {rt : Runtime}.
Variables (sv : Services) (fs : FileSystem) (pf : Platform) (now : string).

(** The handler always runs the index builder, and hands back its log. *)
Lemma reindex_runs_builder (s : Process) :
  snd (reindex sv fs pf now s) = snd (initialize_pinecone sv fs).
Proof.
  unfold reindex.
  destruct (initialize_pinecone sv fs) as [success log]; simpl.
  destruct success; [destruct (RAGPipeline_init pf _) |]; reflexivity.
Qed.

(** C10: when the index builder reports failure, the reindex handler only
    raises the HTTP 500 error; the singleton, the instance count and every
    field of [stats] are those of the state it started from. *)
Theorem reindex_failure_changes_nothing (s : Process) :
  fst (initialize_pinecone sv fs) = false ->
  reindex sv fs pf now s
  = (Raise (HTTPException 500 "Failed to rebuild Pinecone index"), s,
     snd (initialize_pinecone sv fs)).
Proof.
  intros Hfail. unfold reindex.
  destruct (initialize_pinecone sv fs) as [success log]; simpl in *.
  subst success. reflexivity.
Qed.

Lemma RAGPipeline_init_ident (fresh : nat) (p : RAGPipeline) :
  RAGPipeline_init pf fresh = Ok p -> ident p = fresh.
Proof.
  unfold RAGPipeline_init.
  destruct (new_PineconeEmbeddings pf); [| discriminate].
  destruct (new_ChatGroq pf); [| discriminate].
  destruct (new_PineconeVectorStore pf _); [| discriminate].
  simpl. intros [= <-]. reflexivity.
Qed.

(** C3, as amended: the handler runs the index builder first.  When the
    builder reports success and the constructor returns, the handler has
    itself constructed a new [RAGPipeline] and stored it as the singleton,
    so the next [get_rag_pipeline()] returns this object without
    constructing anything, and the object is not the one it replaced.  When
    the builder reports failure the handler raises the HTTP 500 error. *)
Theorem reindex_replaces_singleton_at_once (s : Process) :
  (fst (initialize_pinecone sv fs) = true ->
   forall p, RAGPipeline_init pf (instances (globals s)) = Ok p ->
     let s' := {| globals := {| rag_pipeline := Some p;
                                instances := S (instances (globals s)) |};
                  stats := reindexed now (stats s) |} in
     reindex sv fs pf now s
     = (Ok (JSONResponse [("message", VStr "Pinecone index rebuilt successfully")]),
        s', snd (initialize_pinecone sv fs))
     /\ (forall pf', get_rag_pipeline pf' (globals s') = (Ok p, globals s'))
     /\ (forall old, rag_pipeline (globals s) = Some old ->
                     ident old < instances (globals s) -> ident p <> ident old))
  /\ (fst (initialize_pinecone sv fs) = false ->
      fst (fst (reindex sv fs pf now s))
      = Raise (HTTPException 500 "Failed to rebuild Pinecone index")).
Proof.
  unfold reindex.
  destruct (initialize_pinecone sv fs) as [success log]; simpl.
  split.
  - intros -> p Hinit. rewrite Hinit. repeat split.
    intros old _ Hold. rewrite (RAGPipeline_init_ident _ Hinit). lia.
  - intros ->. reflexivity.
Qed.

End Reindex.

Lemma reindex_failure_changes_nothing_witness :
  fst (initialize_pinecone (rt := Doubles.runtime) Doubles.no_key Doubles.data_dir) = false
  /\ reindex (rt := Doubles.runtime) Doubles.no_key Doubles.data_dir Doubles.platform "2026-01-01 00:00:00"
             Doubles.running
     = (Raise (HTTPException 500 "Failed to rebuild Pinecone index"),
        Doubles.running, []).
Proof.
  split; [reflexivity |].
  apply (reindex_failure_changes_nothing Doubles.no_key Doubles.data_dir
           Doubles.platform "2026-01-01 00:00:00" Doubles.running).
  reflexivity.
Defined.

Lemma reindex_replaces_singleton_at_once_witness :
  let s := Doubles.running in
  let p := {| ident := 1; api_key := Some "pc-key"; llm := Doubles.model;
              index_name := "greyfang"; vectorstore := Doubles.store |} in
  (let s' := {| globals := {| rag_pipeline := Some p;
                              instances := S (instances (globals s)) |};
                stats := reindexed "2026-01-01 00:00:00" (stats s) |} in
   reindex (rt := Doubles.runtime) (Doubles.services 1024) Doubles.data_dir
           Doubles.platform "2026-01-01 00:00:00" s
   = (Ok (JSONResponse [("message", VStr "Pinecone index rebuilt successfully")]),
      s',
      snd (initialize_pinecone (rt := Doubles.runtime) (Doubles.services 1024)
                               Doubles.data_dir))
   /\ (forall pf', get_rag_pipeline pf' (globals s') = (Ok p, globals s'))
   /\ (forall old, rag_pipeline (globals s) = Some old ->
                   ident old < instances (globals s) -> ident p <> ident old))
  /\ fst (fst (reindex (rt := Doubles.runtime) Doubles.no_key Doubles.data_dir
                       Doubles.platform "2026-01-01 00:00:00" s))
     = Raise (HTTPException 500 "Failed to rebuild Pinecone index").
Proof.
  cbv zeta. split.
  - apply (proj1 (reindex_replaces_singleton_at_once (rt := Doubles.runtime)
                    (Doubles.services 1024) Doubles.data_dir Doubles.platform
                    "2026-01-01 00:00:00" Doubles.running));
      reflexivity.
  - apply (proj2 (reindex_replaces_singleton_at_once (rt := Doubles.runtime)
                    Doubles.no_key Doubles.data_dir Doubles.platform
                    "2026-01-01 00:00:00" Doubles.running)).
    reflexivity.
Defined.

(** C3, as stated, fails: after a successful rebuild the singleton slot is
    not empty, the handler has already constructed the second pipeline. *)
Lemma reindex_recreates_eagerly :
  fst (initialize_pinecone (rt := Doubles.runtime) (Doubles.services 1024)
                           Doubles.data_dir) = true
  /\ instances (globals (snd (fst (reindex (rt := Doubles.runtime)
                                     (Doubles.services 1024) Doubles.data_dir
                                     Doubles.platform "2026-01-01 00:00:00"
                                     Doubles.running)))) = 2
  /\ ~ reindex_recreates_lazily (rt := Doubles.runtime) (Doubles.services 1024)
        Doubles.data_dir Doubles.platform "2026-01-01 00:00:00" Doubles.running.
Proof.
  split; [reflexivity |]. split; [reflexivity |].
  unfold reindex_recreates_lazily.
  change (reindex (rt := Doubles.runtime) (Doubles.services 1024) Doubles.data_dir
                  Doubles.platform "2026-01-01 00:00:00" Doubles.running)
    with (Ok (JSONResponse [("message", VStr "Pinecone index rebuilt successfully")]),
          {| globals := {| rag_pipeline :=
                             Some {| ident := 1; api_key := Some "pc-key";
                                     llm := Doubles.model; index_name := "greyfang";
                                     vectorstore := Doubles.store |};
                           instances := 2 |};
             stats := reindexed "2026-01-01 00:00:00" (stats Doubles.running) |},
          snd (initialize_pinecone (rt := Doubles.runtime) (Doubles.services 1024)
                                   Doubles.data_dir)).
  change (fst (initialize_pinecone (rt := Doubles.runtime) (Doubles.services 1024)
                                   Doubles.data_dir)) with true.
  cbv iota. intros [Hslot _]. discriminate Hslot.
Qed.

(** ** The chat paths *)
Section Chat.
Variable pf : Platform.

(** Both paths hand the same prompt to the chain: the template filled with
    the four retrieved documents and the raw question. *)
Lemma paths_share_prompt (p : RAGPipeline) (query : string) (docs : list Document) :
  retrieve p query 4 = Ok docs ->
  get_response p query = chain_invoke (llm p) (prompt (format_docs docs) query)
  /\ get_response_stream p query = chain_stream (llm p) (prompt (format_docs docs) query).
Proof.
  intros Hdocs. unfold get_response, get_response_stream, _query_understanding.
  rewrite Hdocs. split; reflexivity.
Qed.

(** C1: when the chain answers a prompt the same way in both modes, a query
    for which [get_response] returns a text makes [get_response_stream] run
    to its end with fragments that concatenate to that text; and
    [POST /api/chat] sends that text as [response] when [stream] is false
    and those fragments as its body when [stream] is true. *)
Theorem streamed_fragments_make_up_the_response
  (p : RAGPipeline) (query text : string) :
  same_response (llm p) ->
  get_response p query = Ok text ->
  let body := get_response_stream p query in
  failure body = None
  /\ String.concat "" (chunks body) = text
  /\ (forall s g t0 t1,
        get_rag_pipeline pf (globals s) = (Ok p, g) ->
        fst (post_api_chat pf {| message := query; stream_ := false |} t0 t1 s)
        = Ok (Json [("response", VStr text)])
        /\ fst (post_api_chat pf {| message := query; stream_ := true |} t0 t1 s)
           = Ok (Chunked body)).
Proof.
  intros Hsame Htext. cbv zeta.
  assert (Hbody : failure (get_response_stream p query) = None
                  /\ String.concat "" (chunks (get_response_stream p query)) = text).
  { unfold get_response in Htext. unfold get_response_stream.
    destruct (retrieve p (_query_understanding query) 4) as [docs |];
      [| discriminate].
    simpl in Htext. apply Hsame. assumption. }
  destruct Hbody as [Hend Hcat].
  split; [assumption |]. split; [assumption |].
  intros s g t0 t1 Hp. unfold post_api_chat, chat. rewrite Hp. simpl. split.
  - rewrite Htext. reflexivity.
  - unfold event_generator. rewrite Hend. reflexivity.
Qed.

(** C8: a request to [POST /api/chat] whose reply reached the client whole,
    streamed or not, and a socket turn that ran to its end, each add one to
    [total_queries] and replace [avg_response_time] by the half of its sum
    with the elapsed time of the request. *)
Theorem chat_request_is_counted
  (request : ChatRequest) (t0 t1 : float) (s s' : Process) (r : reply)
  (p : RAGPipeline) (t : turn) (w w' : Process) (frames : list ws_event) :
  (post_api_chat pf request t0 t1 s = (Ok r, s') ->
   completed r ->
   counted t0 t1 (stats s) (stats s'))
  /\ (ws_turn p t w = (frames, w', true) ->
      counted (started t) (finished t) (stats w) (stats w')).
Proof.
  split.
  - unfold post_api_chat, chat.
    destruct (get_rag_pipeline pf (globals s)) as [[pipeline | e] g]; [| discriminate].
    destruct (stream_ request).
    + unfold event_generator.
      destruct (failure (get_response_stream pipeline (message request))) eqn:Hend;
        intros [= <- <-] Hdone; simpl in Hdone.
      * congruence.
      * split; reflexivity.
    + destruct (get_response pipeline (message request)); [| discriminate].
      intros [= <- <-] _. split; reflexivity.
  - unfold ws_turn.
    destruct (failure (get_response_stream p (data t))); [discriminate |].
    intros [= _ <-]. split; reflexivity.
Qed.

(** Every turn of the loop runs to its end when no stream raises. *)
Lemma ws_loop_frames (p : RAGPipeline) (turns : list turn) :
  (forall t, In t turns -> failure (get_response_stream p (data t)) = None) ->
  forall s, fst (ws_loop p turns s) = flat_map (turn_frames p) turns.
Proof.
  induction turns as [| t rest IH]; intros Hok s; [reflexivity |].
  simpl. unfold ws_turn. rewrite (Hok t (or_introl eq_refl)).
  match goal with |- context [ws_loop p rest ?s1] =>
    specialize (IH (fun t' Ht' => Hok t' (or_intror Ht')) s1);
    destruct (ws_loop p rest s1) as [evs s2]
  end.
  simpl in *. rewrite IH. unfold turn_frames. rewrite <- app_assoc. reflexivity.
Qed.

(** C9, as amended: for the messages the peer sends before it disconnects,
    and as long as no answer stream raises, the socket carries, message
    after message, the received text, the fragments of its answer and one
    [[DONE]] frame. *)
Theorem socket_answers_each_message_then_done
  (turns : list turn) (s : Process) (p : RAGPipeline) (g : Globals) :
  get_rag_pipeline pf (globals s) = (Ok p, g) ->
  (forall t, In t turns -> failure (get_response_stream p (data t)) = None) ->
  fst (websocket_endpoint pf turns s)
  = (Ok tt, Accepted :: flat_map (turn_frames p) turns).
Proof.
  intros Hp Hok. unfold websocket_endpoint. rewrite Hp.
  pose proof (ws_loop_frames p turns Hok {| globals := g; stats := stats s |}) as Hframes.
  destruct (ws_loop p turns _) as [evs s']. simpl in *. rewrite Hframes. reflexivity.
Qed.

End Chat.

Lemma streamed_fragments_make_up_the_response_witness :
  let body := get_response_stream Doubles.pipeline0 "Who are you?" in
  failure body = None
  /\ String.concat "" (chunks body) = "Hi, I am Hammad"
  /\ (forall s g t0 t1,
        get_rag_pipeline Doubles.platform (globals s) = (Ok Doubles.pipeline0, g) ->
        fst (post_api_chat Doubles.platform
                           {| message := "Who are you?"; stream_ := false |} t0 t1 s)
        = Ok (Json [("response", VStr "Hi, I am Hammad")])
        /\ fst (post_api_chat Doubles.platform
                              {| message := "Who are you?"; stream_ := true |} t0 t1 s)
           = Ok (Chunked body)).
Proof.
  apply (streamed_fragments_make_up_the_response Doubles.platform Doubles.pipeline0
           "Who are you?" (text := "Hi, I am Hammad")).
  - intros prompt_text text [= <-]. split; reflexivity.
  - reflexivity.
Defined.

Lemma chat_request_is_counted_witness :
  let request := {| message := "Who are you?"; stream_ := true |} in
  let t := {| data := "Who are you?"; started := 10; finished := 12.5 |} in
  counted 10 12.5 (stats Doubles.running)
          (stats (snd (post_api_chat Doubles.platform request 10 12.5 Doubles.running)))
  /\ counted 10 12.5 (stats Doubles.running)
             (stats (snd (fst (ws_turn Doubles.pipeline0 t Doubles.running)))).
Proof.
  cbv zeta.
  destruct (chat_request_is_counted Doubles.platform
              {| message := "Who are you?"; stream_ := true |} 10 12.5
              Doubles.running
              (snd (post_api_chat Doubles.platform
                      {| message := "Who are you?"; stream_ := true |} 10 12.5
                      Doubles.running))
              (Chunked (get_response_stream Doubles.pipeline0 "Who are you?"))
              Doubles.pipeline0
              {| data := "Who are you?"; started := 10; finished := 12.5 |}
              Doubles.running
              (snd (fst (ws_turn Doubles.pipeline0
                           {| data := "Who are you?"; started := 10; finished := 12.5 |}
                           Doubles.running)))
              (turn_frames Doubles.pipeline0
                 {| data := "Who are you?"; started := 10; finished := 12.5 |}))
    as [Hhttp Hsocket].
  split.
  - apply Hhttp; reflexivity.
  - apply Hsocket. reflexivity.
Defined.

(** The first request of a process, answered in 2.5 seconds: one query,
    and an average of 1.25 seconds. *)
Example first_request_stats :
  stats (snd (post_api_chat Doubles.platform
                {| message := "Who are you?"; stream_ := false |} 10 12.5
                Doubles.fresh_process))
  = {| total_queries := 1; avg_response_time := 1.25;
       last_reindex_time := None; index_status := "Ready (Pinecone)" |}.
Proof. reflexivity. Qed.

Lemma socket_answers_each_message_then_done_witness :
  let turns := [{| data := "Who are you?"; started := 10; finished := 12.5 |};
                {| data := "Skills?"; started := 20; finished := 21 |}] in
  fst (websocket_endpoint Doubles.platform turns Doubles.fresh_process)
  = (Ok tt, Accepted :: flat_map (turn_frames Doubles.pipeline0) turns).
Proof.
  apply (socket_answers_each_message_then_done Doubles.platform _
           Doubles.fresh_process (p := Doubles.pipeline0)
           (g := {| rag_pipeline := Some Doubles.pipeline0; instances := 1 |})).
  - reflexivity.
  - intros t _. reflexivity.
Defined.

(** C9, as stated, fails: the retrieval for the second message raises, so
    that message is received but gets no [[DONE]] frame; the socket is
    closed instead. *)
Lemma received_message_without_done :
  snd (fst (websocket_endpoint Doubles.platform
              [{| data := "Hello"; started := 10; finished := 12.5 |};
               {| data := "crash"; started := 20; finished := 21 |}]
              (Doubles.running_with Doubles.pipeline_flaky)))
  = [Accepted;
     Received "Hello"; Sent "Hi"; Sent ", I am "; Sent "Hammad"; Sent "[DONE]";
     Received "crash"; Closed]
  /\ ~ every_message_ends_with_done Doubles.platform
        [{| data := "Hello"; started := 10; finished := 12.5 |};
         {| data := "crash"; started := 20; finished := 21 |}]
        (Doubles.running_with Doubles.pipeline_flaky).
Proof.
  split; [reflexivity |].
  intros Hclaim.
  specialize (Hclaim Doubles.pipeline_flaky
                (globals (Doubles.running_with Doubles.pipeline_flaky)) eq_refl).
  apply (f_equal (fun frames => nth 7 frames Accepted)) in Hclaim.
  discriminate Hclaim.
Qed.

(** Two messages on the socket: each is answered by its three fragments and
    one sentinel before the next one is received. *)
Example two_messages_on_the_socket :
  snd (fst (websocket_endpoint Doubles.platform
              [{| data := "Who are you?"; started := 10; finished := 12.5 |};
               {| data := "Skills?"; started := 20; finished := 21 |}]
              Doubles.fresh_process))
  = [Accepted;
     Received "Who are you?"; Sent "Hi"; Sent ", I am "; Sent "Hammad"; Sent "[DONE]";
     Received "Skills?"; Sent "Hi"; Sent ", I am "; Sent "Hammad"; Sent "[DONE]"].
Proof. reflexivity. Qed.

(** * Further properties of the sources *)

(** ** Which records the loader accepts *)
Section AcceptedRecords.
Context {rt : Runtime}.

Lemma is_ok_bind {A B : Type} (r : result A) (k : A -> result B) :
  is_ok (bind r k) = match r with Ok a => is_ok (k a) | Raise _ => false end.
Proof. destruct r; reflexivity. Qed.

(** A loop runs to its end when each body does, whatever the accumulator. *)
Lemma for_each_is_ok {A S : Type} (body : S -> A -> result S) (good : A -> bool) :
  (forall acc x, is_ok (body acc x) = good x) ->
  forall items acc, is_ok (for_each items body acc) = forallb good items.
Proof.
  intros Hbody. induction items as [| x rest IH]; intros acc; [reflexivity |].
  simpl. rewrite is_ok_bind. specialize (Hbody acc x).
  destruct (body acc x) as [acc' |]; simpl in Hbody; rewrite <- Hbody; simpl.
  - apply IH.
  - reflexivity.
Qed.

Lemma iterate_is_ok (v : value) : is_ok (iterate v) = iterable v.
Proof. destruct v; reflexivity. Qed.

Lemma strings_of_is_ok (items : list value) :
  is_ok (strings_of items) = forallb is_str items.
Proof.
  induction items as [| v rest IH]; [reflexivity |].
  destruct v; try reflexivity. simpl. rewrite is_ok_bind.
  destruct (strings_of rest); simpl in *; rewrite <- IH; reflexivity.
Qed.

Lemma personal_profile_is_ok (info : value) (content_parts : list string) :
  is_ok (personal_profile info content_parts) = profile_ok info.
Proof.
  destruct info; try reflexivity.
  unfold personal_profile, profile_ok. simpl.
  destruct (dict_get d "contact" (VDict [])); reflexivity.
Qed.

Lemma experience_entry_is_ok (content_parts : list string) (exp : value) :
  is_ok (experience_entry content_parts exp) = experience_ok exp.
Proof.
  destruct exp; try reflexivity.
  unfold experience_entry, experience_ok.
  destruct (truthy _ && truthy _); [| reflexivity].
  rewrite is_ok_bind, <- iterate_is_ok.
  destruct (iterate _); reflexivity.
Qed.

Lemma project_entry_is_ok (content_parts : list string) (proj : value) :
  is_ok (project_entry content_parts proj) = true.
Proof.
  destruct proj; try reflexivity.
  unfold project_entry. destruct (truthy _); reflexivity.
Qed.

Lemma skills_entry_is_ok (content_parts : list string) (item : string * value) :
  is_ok (skills_entry content_parts item) = skills_item_ok item.
Proof.
  unfold skills_entry, skills_item_ok.
  destruct (snd item); try reflexivity.
  rewrite is_ok_bind, <- strings_of_is_ok.
  destruct (strings_of l); reflexivity.
Qed.

(** When what follows runs to its end or not regardless of the value it is
    handed, a sequence runs to its end when both parts do. *)
Lemma is_ok_bind_const {A B : Type} (r : result A) (k : A -> result B) (c : bool) :
  (forall a, is_ok (k a) = c) -> is_ok (bind r k) = is_ok r && c.
Proof. intros Hk. destruct r; simpl; [apply Hk | reflexivity]. Qed.

Lemma profile_stage_is_ok (d : list (string * value)) (parts : list string) :
  is_ok (if contains "personal_profile" d
         then personal_profile (dict_get d "personal_profile" VNone) parts
         else Ok parts)
  = (if contains "personal_profile" d
     then profile_ok (dict_get d "personal_profile" VNone) else true).
Proof.
  destruct (contains "personal_profile" d); [apply personal_profile_is_ok | reflexivity].
Qed.

Lemma experience_stage_is_ok (d : list (string * value)) (parts : list string) :
  is_ok (if contains "professional_experience" d
         then
           entries <- iterate (dict_get d "professional_experience" VNone) ;;
           for_each entries experience_entry (parts ++ [nl ^^ "Professional Experience:"])
         else Ok parts)
  = (if contains "professional_experience" d
     then match iterate (dict_get d "professional_experience" VNone) with
          | Ok entries => forallb experience_ok entries
          | Raise _ => false
          end
     else true).
Proof.
  destruct (contains "professional_experience" d); [| reflexivity].
  rewrite is_ok_bind. destruct (iterate _); [| reflexivity].
  apply for_each_is_ok. apply experience_entry_is_ok.
Qed.

Lemma projects_stage_is_ok (d : list (string * value)) (parts : list string) :
  is_ok (if contains "projects" d
         then
           entries <- iterate (dict_get d "projects" VNone) ;;
           for_each entries project_entry (parts ++ [nl ^^ "Projects:"])
         else Ok parts)
  = (if contains "projects" d then iterable (dict_get d "projects" VNone) else true).
Proof.
  destruct (contains "projects" d); [| reflexivity].
  rewrite is_ok_bind, <- iterate_is_ok.
  destruct (iterate _) as [entries |]; [| reflexivity].
  simpl. rewrite (for_each_is_ok project_entry (fun _ => true) project_entry_is_ok).
  induction entries; simpl; auto.
Qed.

Lemma skills_stage_is_ok (d : list (string * value)) (parts : list string) :
  is_ok (if contains "skills" d
         then
           match dict_get d "skills" VNone with
           | VDict items => for_each items skills_entry (parts ++ [nl ^^ "Skills:"])
           | _ => Ok (parts ++ [nl ^^ "Skills:"])
           end
         else Ok parts)
  = (if contains "skills" d
     then match dict_get d "skills" VNone with
          | VDict items => forallb skills_item_ok items
          | _ => true
          end
     else true).
Proof.
  destruct (contains "skills" d); [| reflexivity].
  destruct (dict_get d "skills" VNone); try reflexivity.
  apply for_each_is_ok. apply skills_entry_is_ok.
Qed.

Lemma extract_sections_is_ok (d : list (string * value)) :
  is_ok (extract_sections d) = sections_ok d.
Proof.
  unfold extract_sections, sections_ok.
  erewrite is_ok_bind_const.
  2:{ intros parts1. erewrite is_ok_bind_const.
      2:{ intros parts2. erewrite is_ok_bind_const.
          2:{ intros parts3. apply skills_stage_is_ok. }
          rewrite projects_stage_is_ok. reflexivity. }
      rewrite experience_stage_is_ok. reflexivity. }
  rewrite profile_stage_is_ok, !andb_assoc. reflexivity.
Qed.

(** The loader turns a parsed value into a Document exactly when the value
    is a dict whose sections have the shapes the extraction reads:
    [document_of] returns if and only if [processable] holds. *)
Theorem loader_accepts_processable_records (filename : string) (data : value) :
  is_ok (document_of filename data) = processable data.
Proof.
  destruct data; try reflexivity.
  unfold document_of, processable. rewrite is_ok_bind, <- extract_sections_is_ok.
  destruct (extract_sections d); reflexivity.
Qed.

(** *** The text of a record with sections *)

Lemma extends_refl (acc : list string) : extends acc acc.
Proof. exists []. rewrite app_nil_r. split; [reflexivity | constructor]. Qed.

Lemma extends_trans (a b c : list string) : extends a b -> extends b c -> extends a c.
Proof.
  intros [e1 [-> H1]] [e2 [-> H2]]. exists (e1 ++ e2).
  rewrite app_assoc. split; [reflexivity | apply Forall_app; auto].
Qed.

Lemma extends_length (a b : list string) : extends a b -> List.length a <= List.length b.
Proof. intros [e [-> _]]. rewrite length_app. lia. Qed.

Lemma extends_lines (acc lines : list string) :
  Forall (fun line => line <> "") lines -> extends acc (acc ++ lines).
Proof. intros H. exists lines. auto. Qed.

Lemma for_each_extends {A : Type} (body : list string -> A -> result (list string)) :
  (forall acc x acc', body acc x = Ok acc' -> extends acc acc') ->
  forall items acc acc', for_each items body acc = Ok acc' -> extends acc acc'.
Proof.
  intros Hbody. induction items as [| x rest IH]; intros acc acc'; simpl.
  - intros [= <-]. apply extends_refl.
  - destruct (body acc x) as [mid |] eqn:Hx; [| discriminate]. simpl. intros Hrest.
    eapply extends_trans; [eapply Hbody; eassumption | eapply IH; eassumption].
Qed.

Lemma experience_entry_extends (acc : list string) (exp : value) (acc' : list string) :
  experience_entry acc exp = Ok acc' -> extends acc acc'.
Proof.
  unfold experience_entry. destruct exp; try (intros [= <-]; apply extends_refl).
  destruct (truthy _ && truthy _); [| intros [= <-]; apply extends_refl].
  destruct (iterate _) as [achievements |]; [| discriminate].
  simpl. intros [= <-]. rewrite <- app_assoc. apply extends_lines.
  constructor; [discriminate |].
  apply Forall_forall. intros line Hin. apply in_map_iff in Hin.
  destruct Hin as [ach [<- _]]. discriminate.
Qed.

Lemma project_entry_extends (acc : list string) (proj : value) (acc' : list string) :
  project_entry acc proj = Ok acc' -> extends acc acc'.
Proof.
  unfold project_entry. destruct proj; try (intros [= <-]; apply extends_refl).
  destruct (truthy _); intros [= <-]; [| apply extends_refl].
  apply extends_lines. constructor; [discriminate | constructor].
Qed.

Lemma skills_entry_extends (acc : list string) (item : string * value) (acc' : list string) :
  skills_entry acc item = Ok acc' -> extends acc acc'.
Proof.
  unfold skills_entry. destruct (snd item); try (intros [= <-]; apply extends_refl).
  destruct (strings_of _) as [names |]; [| discriminate].
  simpl. intros [= <-].
  apply extends_lines. constructor; [discriminate | constructor].
Qed.

Lemma header_extends (acc : list string) (title : string) :
  extends acc (acc ++ [nl ^^ title]).
Proof. apply extends_lines. constructor; [discriminate | constructor]. Qed.

Lemma profile_stage_extends (d : list (string * value)) (acc acc' : list string) :
  (if contains "personal_profile" d
   then personal_profile (dict_get d "personal_profile" VNone) acc
   else Ok acc) = Ok acc' ->
  extends acc acc'
  /\ (contains "personal_profile" d = true -> List.length acc < List.length acc').
Proof.
  destruct (contains "personal_profile" d).
  - unfold personal_profile.
    repeat match goal with
           | |- context [bind ?r _] =>
               destruct r; [cbn [bind] | discriminate]
           end.
    intros [= <-]. split.
    + apply extends_lines. repeat (constructor; [discriminate |]). constructor.
    + intros _. rewrite length_app. simpl. lia.
  - intros [= <-]. split; [apply extends_refl | discriminate].
Qed.

Lemma experience_stage_extends (d : list (string * value)) (acc acc' : list string) :
  (if contains "professional_experience" d
   then
     entries <- iterate (dict_get d "professional_experience" VNone) ;;
     for_each entries experience_entry (acc ++ [nl ^^ "Professional Experience:"])
   else Ok acc) = Ok acc' ->
  extends acc acc'
  /\ (contains "professional_experience" d = true -> List.length acc < List.length acc').
Proof.
  destruct (contains "professional_experience" d).
  - destruct (iterate _) as [entries |]; [| discriminate]. simpl. intros Hloop.
    apply (for_each_extends experience_entry experience_entry_extends) in Hloop.
    split.
    + eapply extends_trans; [apply header_extends | exact Hloop].
    + intros _. apply extends_length in Hloop. rewrite length_app in Hloop.
      simpl in Hloop. lia.
  - intros [= <-]. split; [apply extends_refl | discriminate].
Qed.

Lemma projects_stage_extends (d : list (string * value)) (acc acc' : list string) :
  (if contains "projects" d
   then
     entries <- iterate (dict_get d "projects" VNone) ;;
     for_each entries project_entry (acc ++ [nl ^^ "Projects:"])
   else Ok acc) = Ok acc' ->
  extends acc acc'
  /\ (contains "projects" d = true -> List.length acc < List.length acc').
Proof.
  destruct (contains "projects" d).
  - destruct (iterate _) as [entries |]; [| discriminate]. simpl. intros Hloop.
    apply (for_each_extends project_entry project_entry_extends) in Hloop.
    split.
    + eapply extends_trans; [apply header_extends | exact Hloop].
    + intros _. apply extends_length in Hloop. rewrite length_app in Hloop.
      simpl in Hloop. lia.
  - intros [= <-]. split; [apply extends_refl | discriminate].
Qed.

Lemma skills_stage_extends (d : list (string * value)) (acc acc' : list string) :
  (if contains "skills" d
   then
     match dict_get d "skills" VNone with
     | VDict items => for_each items skills_entry (acc ++ [nl ^^ "Skills:"])
     | _ => Ok (acc ++ [nl ^^ "Skills:"])
     end
   else Ok acc) = Ok acc' ->
  extends acc acc'
  /\ (contains "skills" d = true -> List.length acc < List.length acc').
Proof.
  destruct (contains "skills" d).
  - assert (Hdone : forall r, extends (acc ++ [nl ^^ "Skills:"]) r ->
                              extends acc r /\ (true = true -> List.length acc < List.length r)).
    { intros r Hr. split.
      - eapply extends_trans; [apply header_extends | exact Hr].
      - intros _. apply extends_length in Hr. rewrite length_app in Hr.
        simpl in Hr. lia. }
    destruct (dict_get d "skills" VNone) as [| | | | | | items];
      try (intros [= <-]; apply Hdone, extends_refl).
    intros Hloop. apply Hdone.
    apply (for_each_extends skills_entry skills_entry_extends) in Hloop. exact Hloop.
  - intros [= <-]. split; [apply extends_refl | discriminate].
Qed.

(** The four stages only append non-empty lines, and a section that is
    present appends at least its first line. *)
Lemma extract_sections_lines (d : list (string * value)) (parts : list string) :
  extract_sections d = Ok parts ->
  Forall (fun line => line <> "") parts
  /\ (no_section d = false -> parts <> []).
Proof.
  unfold extract_sections, no_section. intros Hrun.
  match type of Hrun with bind ?r _ = _ => destruct r as [r1 |] eqn:H1 end;
    [| discriminate].
  cbn [bind] in Hrun.
  match type of Hrun with bind ?r _ = _ => destruct r as [r2 |] eqn:H2 end;
    [| discriminate].
  cbn [bind] in Hrun.
  match type of Hrun with bind ?r _ = _ => destruct r as [r3 |] eqn:H3 end;
    [| discriminate].
  cbn [bind] in Hrun.
  apply profile_stage_extends in H1. destruct H1 as [E1 L1].
  apply experience_stage_extends in H2. destruct H2 as [E2 L2].
  apply projects_stage_extends in H3. destruct H3 as [E3 L3].
  apply skills_stage_extends in Hrun. destruct Hrun as [E4 L4].
  split.
  - destruct (extends_trans (extends_trans (extends_trans E1 E2) E3) E4)
      as [extra [-> Hlines]].
    exact Hlines.
  - intros Hsome.
    apply extends_length in E1, E2, E3, E4. simpl in E1.
    assert (Hlen : 0 < List.length parts).
    { destruct (contains "personal_profile" d); [specialize (L1 eq_refl); lia |].
      destruct (contains "professional_experience" d); [specialize (L2 eq_refl); lia |].
      destruct (contains "projects" d); [specialize (L3 eq_refl); lia |].
      destruct (contains "skills" d); [specialize (L4 eq_refl); lia |].
      discriminate Hsome. }
    destruct parts; [simpl in Hlen; lia | discriminate].
Qed.

Lemma join_starts_with_first (sep first : string) (rest : list string) :
  first <> "" -> join sep (first :: rest) <> "".
Proof.
  intros Hfirst. unfold join. simpl.
  destruct first as [| c tail]; [congruence |].
  destruct rest; discriminate.
Qed.

(** A processable record with at least one of the four sections becomes a
    Document whose content is the extracted lines joined by newlines, never
    the JSON fallback, and is not empty. *)
Theorem record_with_sections_gets_its_lines (filename : string) (d : list (string * value)) :
  sections_ok d = true ->
  no_section d = false ->
  exists doc parts,
    document_of filename (VDict d) = Ok doc
    /\ extract_sections d = Ok parts
    /\ parts <> []
    /\ Forall (fun line => line <> "") parts
    /\ page_content doc = join nl parts
    /\ page_content doc <> "".
Proof.
  intros Hshape Hsome. rewrite <- extract_sections_is_ok in Hshape.
  unfold document_of.
  destruct (extract_sections d) as [parts |] eqn:Hparts; [| discriminate].
  destruct (extract_sections_lines d Hparts) as [Hlines Hne].
  specialize (Hne Hsome).
  destruct parts as [| first rest]; [congruence |].
  eexists. exists (first :: rest).
  split; [reflexivity |]. split; [reflexivity |]. split; [discriminate |].
  split; [assumption |]. split; [reflexivity |].
  change (join nl (first :: rest) <> "").
  apply join_starts_with_first. inversion Hlines; assumption.
Qed.

(** *** The project lines *)

Lemma project_loop_lines (entries : list value) :
  forall acc,
    for_each entries project_entry acc
    = Ok (acc ++ map project_line (filter named_project entries)).
Proof.
  induction entries as [| proj rest IH]; intros acc; simpl.
  - rewrite app_nil_r. reflexivity.
  - destruct proj; simpl; try apply IH.
    destruct (truthy (dict_get d "name" (VStr ""))); simpl; [| apply IH].
    rewrite IH, <- app_assoc. reflexivity.
Qed.

(** For a record whose only section is [projects], with a value that can be
    iterated, the extraction never raises: it gives the header and one line
    per entry that is a dict with a truthy name, in order; the other
    entries leave no trace. *)
Theorem projects_section_lists_named_entries
  (d : list (string * value)) (v : value) (entries : list value) :
  contains "personal_profile" d = false ->
  contains "professional_experience" d = false ->
  contains "skills" d = false ->
  lookup "projects" d = Some v ->
  iterate v = Ok entries ->
  extract_sections d
  = Ok ((nl ^^ "Projects:") :: map project_line (filter named_project entries)).
Proof.
  intros Hpp Hpe Hsk Hv Hentries. unfold extract_sections, contains, dict_get in *.
  rewrite Hv. destruct (lookup "personal_profile" d); [discriminate |].
  destruct (lookup "professional_experience" d); [discriminate |].
  destruct (lookup "skills" d); [discriminate |].
  cbn [bind]. rewrite Hentries. cbn [bind]. rewrite project_loop_lines. reflexivity.
Qed.

End AcceptedRecords.

Lemma projects_section_lists_named_entries_witness :
  extract_sections (rt := Doubles.runtime) Doubles.portfolio
  = Ok [nl ^^ "Projects:"; "- RAG bot: chat"].
Proof.
  apply (projects_section_lists_named_entries (rt := Doubles.runtime) Doubles.portfolio
           (v := VList [VDict [("name", VStr "RAG bot"); ("description", VStr "chat")];
                        VStr "draft";
                        VDict [("description", VStr "unnamed")]])
           (entries := [VDict [("name", VStr "RAG bot"); ("description", VStr "chat")];
                        VStr "draft";
                        VDict [("description", VStr "unnamed")]]));
    reflexivity.
Defined.

Lemma record_with_sections_gets_its_lines_witness :
  exists doc parts,
    document_of (rt := Doubles.runtime) "hammad.json" (VDict Doubles.portfolio) = Ok doc
    /\ extract_sections (rt := Doubles.runtime) Doubles.portfolio = Ok parts
    /\ parts <> []
    /\ Forall (fun line => line <> "") parts
    /\ page_content doc = join nl parts
    /\ page_content doc <> "".
Proof.
  apply (record_with_sections_gets_its_lines (rt := Doubles.runtime) "hammad.json"
           Doubles.portfolio); reflexivity.
Defined.

(** ** What a loaded Document carries *)
Section LoadedDocuments.
Context {rt : Runtime}.
Variable fs : FileSystem.

Lemma Forall2_pick {A B : Type} (R : A -> B -> Prop) (xs : list A) (ys : list B) :
  Forall2 R xs ys -> forall x, In x xs -> exists y, In y ys /\ R x y.
Proof.
  induction 1 as [| x0 y0 xs ys Hxy _ IH]; intros x Hin; [contradiction |].
  destruct Hin as [<- | Hin].
  - exists y0. split; [left; reflexivity | assumption].
  - destruct (IH x Hin) as [y [Hy Hr]]. exists y. split; [right |]; assumption.
Qed.

(** Every Document the loader returns comes from a [.json] entry of the
    directory whose text parsed to a dict; its metadata are exactly the
    filename as [source], the tag [portfolio_data] as [type], and as [name]
    the record's [name] entry or else the filename without [.json]. *)
Theorem loaded_document_metadata (doc : Document) :
  In doc (load_json_data fs) ->
  exists f text d,
    In f (listdir fs AGENT_DATA_DIR)
    /\ endswith f ".json" = true
    /\ read_text fs (path_join AGENT_DATA_DIR f) = Some text
    /\ json_load text = Some (VDict d)
    /\ metadata doc
       = [("source", VStr f); ("type", VStr "portfolio_data");
          ("name", dict_get d "name" (VStr (replace ".json" "" f)))].
Proof.
  unfold load_json_data. destruct (exists_ fs AGENT_DATA_DIR); simpl; [| contradiction].
  intros Hin.
  pose proof (load_loop fs (listdir fs AGENT_DATA_DIR) (documents := []) (files := [])
                (Forall2_nil _)) as Hall.
  destruct (Forall2_pick Hall doc Hin) as [f [Hf Hload]].
  simpl in Hf. apply filter_In in Hf. destruct Hf as [Hlisted Hclean].
  unfold loads_cleanly in Hclean. apply andb_prop in Hclean. destruct Hclean as [Hjson _].
  unfold load_file in Hload.
  destruct (read_text fs _) as [text |] eqn:Hread; [| discriminate].
  destruct (json_load text) as [data |] eqn:Hparse; [| discriminate].
  destruct data as [| | | | | | d]; try discriminate.
  unfold document_of in Hload.
  destruct (extract_sections d) as [parts |]; [| discriminate].
  simpl in Hload. injection Hload as <-.
  exists f, text, d. repeat split; assumption || reflexivity.
Qed.

End LoadedDocuments.

(** ** One Document per readable record *)
Section ReadableRecords.
Context {rt : Runtime}.
Variable fs : FileSystem.




End ReadableRecords.


(** In the directory of the doubles the readable records are the twelve
    profiles: the malformed file, the text file and the file whose
    [projects] is a number are not. *)
Example readable_records_of_data_dir :
  filter (readable_record (rt := Doubles.runtime) Doubles.data_dir)
         (listdir Doubles.data_dir AGENT_DATA_DIR)
  = Doubles.profiles.
Proof. vm_compute. reflexivity. Qed.

Lemma loaded_document_metadata_witness :
  exists f text d,
    In f (listdir Doubles.data_dir AGENT_DATA_DIR)
    /\ endswith f ".json" = true
    /\ read_text Doubles.data_dir (path_join AGENT_DATA_DIR f) = Some text
    /\ json_load (Runtime := Doubles.runtime) text = Some (VDict d)
    /\ [("source", VStr "p01.json"); ("type", VStr "portfolio_data");
        ("name", VStr "p01")]
       = [("source", VStr f); ("type", VStr "portfolio_data");
          ("name", dict_get d "name" (VStr (replace ".json" "" f)))].
Proof.
  apply (loaded_document_metadata (rt := Doubles.runtime) Doubles.data_dir
           {| page_content := "{}";
              metadata := [("source", VStr "p01.json"); ("type", VStr "portfolio_data");
                           ("name", VStr "p01")] |}).
  vm_compute. left. reflexivity.
Defined.

(** ** The display name *)
Section DisplayName.
Context {rt : Runtime}.

Lemma prefix_first_differs (a c : ascii) (s1 s2 : string) :
  a <> c -> prefix (String a s1) (String c s2) = false.
Proof. intros Hne. simpl. destruct (ascii_dec a c); [contradiction | reflexivity]. Qed.

Lemma replace_from_keeps (old new : string) (c : ascii) (rest : string) :
  prefix old (String c rest) = false ->
  replace_from 0 old new (String c rest) = String c (replace_from 0 old new rest).
Proof. intros Hp. cbn [replace_from]. rewrite Hp. reflexivity. Qed.

(** Removing [.json] from a dotless stem followed by [.json] gives the stem. *)
Lemma replace_json_suffix (stem : string) :
  dotless stem = true -> replace ".json" "" (stem ^^ ".json") = stem.
Proof.
  unfold replace, dotless.
  induction stem as [| c rest IH]; [reflexivity |].
  intros Hdots.
  change (negb (Ascii.eqb c ".")
          && forallb (fun c => negb (Ascii.eqb c ".")) (list_ascii_of_string rest) = true)
    in Hdots.
  apply andb_prop in Hdots. destruct Hdots as [Hc Hrest].
  change (String c rest ^^ ".json") with (String c (rest ^^ ".json")).
  rewrite replace_from_keeps.
  - rewrite (IH Hrest). reflexivity.
  - apply prefix_first_differs. intros <-. discriminate Hc.
Qed.

(** The [name] of a Document loaded from [stem.json], for a stem without a
    dot: the record's own [name] entry when it has one, whatever its type,
    and the stem otherwise. *)
Theorem display_name_is_record_name_or_stem
  (stem : string) (d : list (string * value)) (doc : Document) :
  dotless stem = true ->
  document_of (stem ^^ ".json") (VDict d) = Ok doc ->
  lookup "name" (metadata doc)
  = Some (match lookup "name" d with Some v => v | None => VStr stem end).
Proof.
  intros Hstem. unfold document_of.
  destruct (extract_sections d) as [parts |]; [| discriminate].
  simpl. intros [= <-]. simpl. unfold dict_get.
  rewrite (replace_json_suffix _ Hstem). reflexivity.
Qed.

End DisplayName.

Lemma display_name_is_record_name_or_stem_witness :
  lookup "name" [("source", VStr "p01.json"); ("type", VStr "portfolio_data");
                 ("name", VStr "p01")]
  = Some (VStr "p01").
Proof.
  apply (display_name_is_record_name_or_stem (rt := Doubles.runtime) "p01" []
           (doc := {| page_content := "{}";
                      metadata := [("source", VStr "p01.json");
                                   ("type", VStr "portfolio_data");
                                   ("name", VStr "p01")] |}));
    reflexivity.
Defined.

(** A stem with a dot in [.json] form loses more than its extension. *)
Example display_name_of_double_extension :
  replace ".json" "" "cv.json.json" = "cv".
Proof. reflexivity. Qed.

(** ** Runs of the index builder *)
Section BuilderRuns.
Context {rt : Runtime}.
Variables (sv : Services) (fs : FileSystem).

(** A run either stops during its checks, or passes them all with
    documents in hand. *)
Lemma run_cases :
  (fst (initialize_pinecone sv fs) = false
   /\ forallb is_check (snd (initialize_pinecone sv fs)) = true)
  \/ (checks_pass sv = true /\ load_json_data fs <> []).
Proof.
  unfold initialize_pinecone, checks_pass.
  destruct (key_missing _); [left; split; reflexivity |].
  destruct (Pinecone sv); [| left; split; reflexivity].
  destruct (list_indexes sv) as [names |]; [| left; split; reflexivity].
  destruct (existsb _ names); [| left; split; reflexivity].
  destruct (describe_index_stats sv) as [dimension |]; [| left; split; reflexivity].
  destruct (dimension_is_1024 dimension); [| left; split; reflexivity].
  simpl negb. cbv iota.
  destruct (load_json_data fs) as [| doc docs]; [left; split; reflexivity |].
  destruct (PineconeEmbeddings sv); [| left; split; reflexivity].
  right. split; [reflexivity | discriminate].
Qed.

Lemma checks_are_quiet (log : list event) :
  forallb is_check log = true ->
  uploads log = [] /\ uploaded log = [] /\ slept log = 0
  /\ ~ In EmbeddingsCreated log.
Proof.
  induction log as [| e log IH]; simpl; [intros _; tauto |].
  intros H. apply andb_prop in H. destruct H as [He Hlog].
  destruct (IH Hlog) as [H1 [H2 [H3 H4]]].
  destruct e; try discriminate He; repeat split; auto; intros [Heq | Hin];
    try discriminate Heq; auto.
Qed.

(** The run returns [True] exactly when every check passes and the loader
    found at least one Document. *)
Theorem success_needs_checks_and_documents :
  fst (initialize_pinecone sv fs) = true
  <-> checks_pass sv = true /\ load_json_data fs <> [].
Proof.
  split.
  - intros Hsuccess. destruct run_cases as [[Hfail _] | Hready]; [congruence | exact Hready].
  - intros [Hready Hdocs]. rewrite (run_when_ready sv fs Hready Hdocs). reflexivity.
Qed.

(** A run that returns [False] has written nothing: it made no upload
    attempt, uploaded no batch, and never slept. *)
Theorem failed_run_writes_nothing :
  fst (initialize_pinecone sv fs) = false ->
  uploads (snd (initialize_pinecone sv fs)) = []
  /\ uploaded (snd (initialize_pinecone sv fs)) = []
  /\ slept (snd (initialize_pinecone sv fs)) = 0.
Proof.
  intros Hfail. destruct run_cases as [[_ Hquiet] | [Hready Hdocs]].
  - destruct (checks_are_quiet _ Hquiet) as [H1 [H2 [H3 _]]]. auto.
  - rewrite (run_when_ready sv fs Hready Hdocs) in Hfail. discriminate Hfail.
Qed.

(** With a missing data directory the run fails after its checks, whatever
    the services answer: nothing is embedded or uploaded. *)
Theorem missing_directory_fails_the_run :
  exists_ fs AGENT_DATA_DIR = false ->
  fst (initialize_pinecone sv fs) = false
  /\ uploads (snd (initialize_pinecone sv fs)) = []
  /\ ~ In EmbeddingsCreated (snd (initialize_pinecone sv fs)).
Proof.
  intros Hdir.
  assert (Hnone : load_json_data fs = []).
  { unfold load_json_data. rewrite Hdir. reflexivity. }
  destruct run_cases as [[Hfail Hquiet] | [_ Hdocs]]; [| congruence].
  destruct (checks_are_quiet _ Hquiet) as [H1 [_ [_ H4]]]. auto.
Qed.

(** The log of a run is empty (no client created, nothing listed, read or
    sent) exactly when the API key is missing or empty, or the client
    constructor raises. *)
Theorem nothing_contacted_without_key_or_client :
  snd (initialize_pinecone sv fs) = []
  <-> key_missing (PINECONE_API_KEY sv) = true \/ is_ok (Pinecone sv) = false.
Proof.
  unfold initialize_pinecone.
  destruct (key_missing _); [split; auto |].
  destruct (Pinecone sv); [| split; auto].
  split.
  - destruct (list_indexes sv) as [names |]; [| discriminate].
    destruct (negb _); [discriminate |].
    destruct (describe_index_stats sv) as [dimension |]; [| discriminate].
    destruct (negb _); [discriminate |].
    destruct (load_json_data fs); [discriminate |].
    destruct (PineconeEmbeddings sv); [| discriminate].
    simpl. intros Hnil. apply app_eq_nil in Hnil. destruct Hnil as [Hloop _].
    rewrite upload_loop_log in Hloop. discriminate Hloop.
  - intros [H | H]; discriminate H.
Qed.

End BuilderRuns.

(** ** The upload loop *)
Section UploadLoop.
Context {rt : Runtime}.
Variables (sv : Services) (fs : FileSystem).

(** When no upload call raises, the uploaded batches put together are the
    loaded documents: nothing is lost and nothing is sent twice. *)
Theorem every_document_is_uploaded_when_no_batch_fails :
  checks_pass sv = true ->
  load_json_data fs <> [] ->
  (forall i, In i (offsets (load_json_data fs)) ->
             is_ok (from_documents sv i (batch_at (load_json_data fs) i)) = true) ->
  List.concat (uploaded (snd (initialize_pinecone sv fs))) = load_json_data fs.
Proof.
  intros Hready Hdocs Hok.
  destruct (uploads_of_run sv fs Hready Hdocs) as [_ Hdone]. rewrite Hdone.
  rewrite (filter_ext_in _ (fun _ => true) _ Hok), filter_true.
  unfold offsets, batch_at, batch_size.
  rewrite (@slices_cover _ (load_json_data fs) 4 (List.length (load_json_data fs)))
    by lia.
  reflexivity.
Qed.

Lemma slept_app (a b : list event) : slept (a ++ b) = slept a + slept b.
Proof.
  induction a as [| e a IH]; [reflexivity |].
  destruct e; simpl; rewrite IH; lia.
Qed.

Lemma smoke_tests_no_sleep (queries : list string) :
  slept (fst (smoke_tests sv queries)) = 0.
Proof.
  induction queries as [| q rest IH]; [reflexivity |]. simpl.
  destruct (InitializePinecone.similarity_search sv q 1); [| reflexivity].
  destruct (smoke_tests sv rest) as [evs done]. exact IH.
Qed.

Lemma final_verification_no_sleep : slept (final_verification sv) = 0.
Proof.
  unfold final_verification. destruct (from_existing_index sv); [| reflexivity].
  pose proof (smoke_tests_no_sleep test_queries) as Hq.
  destruct (smoke_tests sv test_queries) as [evs done]. simpl in *.
  rewrite slept_app, Hq.
  destruct done; [destruct (final_index_stats sv) |]; reflexivity.
Qed.

(** The loop sleeps two seconds after a successful upload that is not the
    last one, and never otherwise. *)
Lemma loop_sleep (documents : list Document) (n : nat) : forall m i,
  n - i <= m ->
  slept (flat_map (upload_batch sv documents n []) (range i n 5))
  <= 2 * (List.length (range i n 5) - 1)
  /\ ((forall j, In j (range i n 5) ->
                 is_ok (from_documents sv j (batch_at documents j)) = true) ->
      slept (flat_map (upload_batch sv documents n []) (range i n 5))
      = 2 * (List.length (range i n 5) - 1)).
Proof.
  induction m as [| m IH]; intros i Hm; rewrite range_step;
    destruct (lt_dec i n) as [Hlt | Hge]; try lia; try (split; reflexivity).
  destruct (IH (i + 5)) as [Hle Heq]; [lia |].
  assert (Hnext : (i + batch_size <? n) = true -> 1 <= List.length (range (i + 5) n 5)).
  { intros H. apply Nat.ltb_lt in H. unfold batch_size in H.
    rewrite range_step. destruct (lt_dec (i + 5) n); [simpl; lia | lia]. }
  assert (Hlast : (i + batch_size <? n) = false -> range (i + 5) n 5 = []).
  { intros H. apply Nat.ltb_ge in H. unfold batch_size in H.
    rewrite range_step. destruct (lt_dec (i + 5) n); [lia | reflexivity]. }
  cbn [flat_map List.length]. rewrite slept_app.
  unfold upload_batch at 1 3. fold (batch_at documents i).
  split.
  - destruct (from_documents sv i (batch_at documents i)); simpl.
    + destruct (i + batch_size <? n) eqn:Hmore; simpl.
      * specialize (Hnext eq_refl). lia.
      * rewrite (Hlast eq_refl) in *. simpl. lia.
    + lia.
  - intros Hok. pose proof (Hok i (or_introl eq_refl)) as Hi.
    destruct (from_documents sv i (batch_at documents i)); [| discriminate Hi].
    rewrite Heq by (intros j Hj; apply Hok; right; exact Hj).
    destruct (i + batch_size <? n) eqn:Hmore; simpl.
    + specialize (Hnext eq_refl). lia.
    + rewrite (Hlast eq_refl). simpl. lia.
Qed.

Lemma loop_sleep_count (documents : list Document) (l : list nat) :
  slept (flat_map (upload_batch sv documents (List.length documents) []) l)
  = 2 * List.length (filter (uploaded_before_last sv documents) l).
Proof.
  induction l as [| i l IH]; [reflexivity |].
  cbn [flat_map filter]. rewrite slept_app, IH.
  unfold upload_batch at 1, uploaded_before_last at 2. fold (batch_at documents i).
  destruct (from_documents sv i (batch_at documents i)); simpl.
  - destruct (i + batch_size <? List.length documents); simpl; lia.
  - lia.
Qed.

Lemma no_sleep_follows (log : list event) :
  slept log = 0 -> Forall (fun e => e <> Sleep 0) log ->
  forall b, sleeps_follow_uploads b log = true.
Proof.
  induction log as [| e log IH]; intros Hs Hz b; [reflexivity |].
  inversion Hz as [| ? ? He Hrest]; subst.
  destruct e; simpl in *; try (apply IH; assumption).
  destruct seconds; [congruence | lia].
Qed.

Lemma no_zero_sleep_in_checks (log : list event) :
  forallb is_check log = true -> Forall (fun e => e <> Sleep 0) log.
Proof.
  induction log as [| e log IH]; simpl; [constructor |].
  intros H. apply andb_prop in H. destruct H as [He Hlog].
  constructor; [| apply IH; assumption].
  destruct e; discriminate.
Qed.

Lemma no_zero_sleep_in_smoke_tests (queries : list string) :
  Forall (fun e => e <> Sleep 0) (fst (smoke_tests sv queries)).
Proof.
  induction queries as [| q rest IH]; simpl; [constructor |].
  destruct (InitializePinecone.similarity_search sv q 1).
  - destruct (smoke_tests sv rest) as [evs done]. simpl in *.
    constructor; [discriminate | assumption].
  - repeat constructor. discriminate.
Qed.

Lemma no_zero_sleep_in_verification :
  Forall (fun e => e <> Sleep 0) (final_verification sv).
Proof.
  unfold final_verification. destruct (from_existing_index sv); [| constructor].
  pose proof (no_zero_sleep_in_smoke_tests test_queries) as Hq.
  destruct (smoke_tests sv test_queries) as [evs done]. simpl in Hq.
  constructor; [discriminate |]. apply Forall_app. split; [assumption |].
  destruct done; [destruct (final_index_stats sv) |]; repeat constructor; discriminate.
Qed.

(** In the log of the loop a sleep only ever follows an upload that
    returned, whatever comes after the loop. *)
Lemma loop_sleeps_follow_uploads (documents : list Document) (n : nat) (tail : list event) :
  (forall b, sleeps_follow_uploads b tail = true) ->
  forall l b,
    sleeps_follow_uploads b (flat_map (upload_batch sv documents n []) l ++ tail) = true.
Proof.
  intros Htail. induction l as [| i l IH]; intros b; [apply Htail |].
  cbn [flat_map]. rewrite <- app_assoc. unfold upload_batch at 1.
  destruct (from_documents sv i _); simpl.
  - destruct (i + batch_size <? n); simpl; apply IH.
  - apply IH.
Qed.

(** Every sleep of a run lasts two seconds and comes right after an upload
    that returned: there is none after a failed upload and none outside
    the loop.  A run over [n] documents sleeps two seconds for each batch
    that was uploaded and is not the last one, so at most
    [2 * (ceil(n/5) - 1)] seconds, and exactly that long when no upload
    call raises. *)
Theorem run_sleeps_between_batches_only :
  sleeps_follow_uploads false (snd (initialize_pinecone sv fs)) = true
  /\ (checks_pass sv = true ->
      load_json_data fs <> [] ->
      let documents := load_json_data fs in
      let n := List.length documents in
      slept (snd (initialize_pinecone sv fs))
      = 2 * List.length (filter (uploaded_before_last sv documents) (offsets documents))
      /\ slept (snd (initialize_pinecone sv fs)) <= 2 * ((n + 4) / 5 - 1)
      /\ ((forall i, In i (offsets documents) ->
                     is_ok (from_documents sv i (batch_at documents i)) = true) ->
          slept (snd (initialize_pinecone sv fs)) = 2 * ((n + 4) / 5 - 1))).
Proof.
  split.
  - destruct (run_cases sv fs) as [[_ Hquiet] | [Hready Hdocs]].
    + destruct (checks_are_quiet _ Hquiet) as [_ [_ [Hs _]]].
      apply no_sleep_follows; [assumption | apply no_zero_sleep_in_checks; assumption].
    + rewrite (run_when_ready sv fs Hready Hdocs). cbn [snd].
      rewrite <- app_assoc.
      cbn [app sleeps_follow_uploads].
      apply loop_sleeps_follow_uploads.
      apply no_sleep_follows;
        [apply final_verification_no_sleep | apply no_zero_sleep_in_verification].
  - intros Hready Hdocs. cbv zeta. rewrite (run_when_ready sv fs Hready Hdocs).
    cbn [snd]. rewrite !slept_app, final_verification_no_sleep.
    cbn [slept]. unfold offsets, batch_size.
    set (documents := load_json_data fs). set (n := List.length documents).
    destruct (@loop_sleep documents n n 0) as [Hle Heq]; [lia |].
    rewrite (@range_length_5 n 0 n) in Hle, Heq by lia.
    rewrite Nat.sub_0_r in Hle, Heq.
    split; [| split; [lia |]].
    + rewrite <- (loop_sleep_count documents (range 0 n 5)). fold n. lia.
    + intros Hok. rewrite (Heq Hok). lia.
Qed.

(** The final verification is a diagnostic: whatever the index answers to
    it, the result of the run and the batches attempted and uploaded are
    the same. *)
Theorem verification_does_not_change_the_run
  (opened : result unit) (search : string -> nat -> result (list Document))
  (final : result unit) :
  let run := initialize_pinecone sv fs in
  let run' := initialize_pinecone (with_verification sv opened search final) fs in
  fst run' = fst run
  /\ uploads (snd run') = uploads (snd run)
  /\ uploaded (snd run') = uploaded (snd run).
Proof.
  cbv zeta. unfold initialize_pinecone.
  cbn [with_verification PINECONE_API_KEY Pinecone list_indexes PINECONE_INDEX_NAME
       describe_index_stats PineconeEmbeddings].
  destruct (key_missing _); [auto |].
  destruct (Pinecone sv); [| auto].
  destruct (list_indexes sv) as [names |]; [| auto].
  destruct (negb _); [auto |].
  destruct (describe_index_stats sv) as [dimension |]; [| auto].
  destruct (negb _); [auto |].
  destruct (load_json_data fs) as [| doc docs]; [auto |].
  destruct (PineconeEmbeddings sv); [| auto].
  cbn [fst snd]. split; [reflexivity |].
  rewrite !upload_loop_log, !uploads_app, !uploaded_app.
  destruct (quiet_uploads (final_verification_quiet sv)) as [Hq1 Hq2].
  destruct (quiet_uploads
              (final_verification_quiet (with_verification sv opened search final)))
    as [Hq1' Hq2'].
  rewrite Hq1, Hq2, Hq1', Hq2', !uploads_of_loop, !uploaded_of_loop.
  split; reflexivity.
Qed.

End UploadLoop.

Lemma success_needs_checks_and_documents_witness :
  fst (initialize_pinecone (rt := Doubles.runtime) Doubles.steady Doubles.data_dir) = true
  /\ (checks_pass Doubles.steady = true
      /\ load_json_data (rt := Doubles.runtime) Doubles.data_dir <> []).
Proof.
  assert (Hready : checks_pass Doubles.steady = true
                   /\ load_json_data (rt := Doubles.runtime) Doubles.data_dir <> []).
  { split; [reflexivity | vm_compute; discriminate]. }
  split; [| exact Hready].
  apply (proj2 (success_needs_checks_and_documents (rt := Doubles.runtime)
                  Doubles.steady Doubles.data_dir)).
  exact Hready.
Defined.

Lemma failed_run_writes_nothing_witness :
  uploads (snd (initialize_pinecone (rt := Doubles.runtime) (Doubles.services 768)
                                    Doubles.data_dir)) = []
  /\ uploaded (snd (initialize_pinecone (rt := Doubles.runtime) (Doubles.services 768)
                                        Doubles.data_dir)) = []
  /\ slept (snd (initialize_pinecone (rt := Doubles.runtime) (Doubles.services 768)
                                     Doubles.data_dir)) = 0.
Proof.
  apply (failed_run_writes_nothing (rt := Doubles.runtime) (Doubles.services 768)
           Doubles.data_dir).
  reflexivity.
Defined.

Lemma missing_directory_fails_the_run_witness :
  fst (initialize_pinecone (rt := Doubles.runtime) Doubles.steady Doubles.no_dir) = false
  /\ uploads (snd (initialize_pinecone (rt := Doubles.runtime) Doubles.steady
                                       Doubles.no_dir)) = []
  /\ ~ In EmbeddingsCreated
          (snd (initialize_pinecone (rt := Doubles.runtime) Doubles.steady Doubles.no_dir)).
Proof.
  apply (missing_directory_fails_the_run (rt := Doubles.runtime) Doubles.steady
           Doubles.no_dir).
  reflexivity.
Defined.

Lemma nothing_contacted_without_key_or_client_witness :
  snd (initialize_pinecone (rt := Doubles.runtime) Doubles.no_key Doubles.data_dir) = [].
Proof.
  apply (proj2 (nothing_contacted_without_key_or_client (rt := Doubles.runtime)
                  Doubles.no_key Doubles.data_dir)).
  left. reflexivity.
Defined.

Lemma every_document_is_uploaded_when_no_batch_fails_witness :
  List.concat (uploaded (snd (initialize_pinecone (rt := Doubles.runtime) Doubles.steady
                                                  Doubles.data_dir)))
  = load_json_data (rt := Doubles.runtime) Doubles.data_dir.
Proof.
  apply (every_document_is_uploaded_when_no_batch_fails (rt := Doubles.runtime)
           Doubles.steady Doubles.data_dir).
  - reflexivity.
  - vm_compute. discriminate.
  - intros i _. reflexivity.
Defined.

Lemma run_sleeps_between_batches_only_witness :
  let documents := load_json_data (rt := Doubles.runtime) Doubles.data_dir in
  let n := List.length documents in
  let log := snd (initialize_pinecone (rt := Doubles.runtime) (Doubles.services 1024)
                                      Doubles.data_dir) in
  sleeps_follow_uploads false log = true
  /\ slept log
     = 2 * List.length (filter (uploaded_before_last (rt := Doubles.runtime)
                                  (Doubles.services 1024) documents)
                               (offsets documents))
  /\ slept log <= 2 * ((n + 4) / 5 - 1).
Proof.
  cbv zeta.
  destruct (run_sleeps_between_batches_only (rt := Doubles.runtime)
              (Doubles.services 1024) Doubles.data_dir) as [Hfollow Hcount].
  destruct Hcount as [Hexact [Hbound _]].
  - reflexivity.
  - vm_compute. discriminate.
  - split; [exact Hfollow |]. split; [exact Hexact | exact Hbound].
Defined.

(** Twelve documents: four seconds of sleep when every upload returns, two
    when the second of the three raises. *)
Example sleep_of_twelve_documents :
  slept (snd (initialize_pinecone (rt := Doubles.runtime) Doubles.steady Doubles.data_dir))
  = 4
  /\ slept (snd (initialize_pinecone (rt := Doubles.runtime) (Doubles.services 1024)
                                     Doubles.data_dir)) = 2.
Proof. split; vm_compute; reflexivity. Qed.

(** ** The pipeline and its singleton *)
Section Singleton.

(** Both answer paths read the vector store once, for the query text and
    four results: a store that agrees there gives the same answers. *)
Theorem retrieval_asks_for_four_documents
  (p : RAGPipeline) (vs : VectorStore) (query : string) :
  RagPipeline.similarity_search vs query 4
  = RagPipeline.similarity_search (vectorstore p) query 4 ->
  get_response (with_store p vs) query = get_response p query
  /\ get_response_stream (with_store p vs) query = get_response_stream p query.
Proof.
  intros Hsame. unfold get_response, get_response_stream, retrieve, _query_understanding.
  cbn [with_store vectorstore llm]. rewrite Hsame. split; reflexivity.
Qed.

Lemma string_append_assoc (a b c : string) : (a ^^ b) ^^ c = a ^^ (b ^^ c).
Proof. induction a as [| x a IH]; simpl; [| rewrite IH]; reflexivity. Qed.

Lemma join_app (sep : string) (a b : list string) :
  a <> [] -> b <> [] -> join sep (a ++ b) = join sep a ^^ sep ^^ join sep b.
Proof.
  unfold join. intros Ha Hb. induction a as [| x a IH]; [congruence |].
  destruct a as [| y a].
  - destruct b; [congruence | reflexivity].
  - change (String.concat sep ((x :: y :: a) ++ b))
      with (x ^^ sep ^^ String.concat sep ((y :: a) ++ b)).
    rewrite IH by discriminate.
    change (String.concat sep (x :: y :: a)) with (x ^^ sep ^^ String.concat sep (y :: a)).
    rewrite !string_append_assoc. reflexivity.
Qed.

(** The context keeps the documents in the order retrieved, separated by
    one blank line: formatting two non-empty groups one after the other is
    formatting each and putting a blank line between; a single document is
    its text alone and no document gives the empty context. *)
Theorem format_docs_concatenates (docs1 docs2 : list Document) :
  format_docs [] = ""
  /\ (forall doc, format_docs [doc] = page_content doc)
  /\ (docs1 <> [] -> docs2 <> [] ->
      format_docs (docs1 ++ docs2)
      = format_docs docs1 ^^ (nl ^^ nl) ^^ format_docs docs2).
Proof.
  split; [reflexivity |]. split; [reflexivity |].
  intros H1 H2. unfold format_docs. rewrite map_app. apply join_app.
  - destruct docs1; [congruence | discriminate].
  - destruct docs2; [congruence | discriminate].
Qed.

(** A successful [get_rag_pipeline()] leaves the returned object in the
    slot, so every later call returns it without constructing; it has
    constructed at most one object, and only when the slot was empty.  A
    failed call changes nothing, so the next call tries again. *)
Theorem singleton_is_created_at_most_once
  (pf : Platform) (g g' : Globals) (r : result RAGPipeline) :
  get_rag_pipeline pf g = (r, g') ->
  match r with
  | Ok p =>
      rag_pipeline g' = Some p
      /\ (forall pf', get_rag_pipeline pf' g' = (Ok p, g'))
      /\ (rag_pipeline g = Some p /\ g' = g
          \/ rag_pipeline g = None /\ ident p = instances g
             /\ instances g' = S (instances g))
  | Raise _ => g' = g /\ rag_pipeline g = None
  end.
Proof.
  unfold get_rag_pipeline at 1.
  destruct (rag_pipeline g) as [p0 |] eqn:Hslot.
  - intros [= <- <-]. repeat split.
    + assumption.
    + intros pf'. unfold get_rag_pipeline. rewrite Hslot. reflexivity.
    + left. split; reflexivity.
  - destruct (RAGPipeline_init pf (instances g)) as [p |] eqn:Hinit.
    + intros [= <- <-]. repeat split.
      right. repeat split. eapply RAGPipeline_init_ident. eassumption.
    + intros [= <- <-]. split; reflexivity.
Qed.

End Singleton.

Lemma retrieval_asks_for_four_documents_witness :
  let vs := {| RagPipeline.similarity_search := fun query k =>
                 if Nat.eqb k 4
                 then Ok [{| page_content := "Name: Hammad"; metadata := [] |}]
                 else Raise (ServiceError "unexpected k") |} in
  get_response (with_store Doubles.pipeline0 vs) "Who are you?"
  = get_response Doubles.pipeline0 "Who are you?"
  /\ get_response_stream (with_store Doubles.pipeline0 vs) "Who are you?"
     = get_response_stream Doubles.pipeline0 "Who are you?".
Proof.
  cbv zeta.
  apply (retrieval_asks_for_four_documents Doubles.pipeline0 _ "Who are you?").
  reflexivity.
Defined.

Lemma format_docs_concatenates_witness :
  let a := {| page_content := "Name: Hammad"; metadata := [] |} in
  let b := {| page_content := "Skills: ML"; metadata := [] |} in
  format_docs [a; b] = "Name: Hammad" ^^ (nl ^^ nl) ^^ "Skills: ML".
Proof.
  cbv zeta.
  apply (proj2 (proj2 (format_docs_concatenates
                         [{| page_content := "Name: Hammad"; metadata := [] |}]
                         [{| page_content := "Skills: ML"; metadata := [] |}])));
    discriminate.
Defined.

Lemma singleton_is_created_at_most_once_witness :
  let g' := {| rag_pipeline := Some Doubles.pipeline0; instances := 1 |} in
  rag_pipeline g' = Some Doubles.pipeline0
  /\ (forall pf', get_rag_pipeline pf' g' = (Ok Doubles.pipeline0, g'))
  /\ (rag_pipeline (globals Doubles.fresh_process) = Some Doubles.pipeline0
      /\ g' = globals Doubles.fresh_process
      \/ rag_pipeline (globals Doubles.fresh_process) = None
         /\ ident Doubles.pipeline0 = instances (globals Doubles.fresh_process)
         /\ instances g' = S (instances (globals Doubles.fresh_process))).
Proof.
  cbv zeta.
  apply (singleton_is_created_at_most_once Doubles.platform
           (globals Doubles.fresh_process) (r := Ok Doubles.pipeline0)).
  reflexivity.
Defined.

(** ** The request handlers and the shared state *)
Section Handlers.
Context {rt : Runtime}.

Lemma process_eta (s : Process) : {| globals := globals s; stats := stats s |} = s.
Proof. destruct s; reflexivity. Qed.

(** A chat request whose answer fails after the pipeline was obtained is
    counted in [total_queries] but leaves [avg_response_time] as it was:
    without streaming the handler raises, with streaming the client gets
    the fragments produced before the failure. *)
Theorem failed_chat_is_counted_but_not_averaged
  (pf : Platform) (m : string) (t0 t1 : float) (s : Process)
  (p : RAGPipeline) (g : Globals) (e : exc) :
  get_rag_pipeline pf (globals s) = (Ok p, g) ->
  (get_response p m = Raise e ->
   post_api_chat pf {| message := m; stream_ := false |} t0 t1 s
   = (Raise e, {| globals := g; stats := count_query (stats s) |}))
  /\ (failure (get_response_stream p m) = Some e ->
      post_api_chat pf {| message := m; stream_ := true |} t0 t1 s
      = (Ok (Chunked (get_response_stream p m)),
         {| globals := g; stats := count_query (stats s) |})).
Proof.
  intros Hp. unfold post_api_chat, chat. rewrite Hp. cbn [stream_ message]. split.
  - intros ->. reflexivity.
  - intros Hfail. unfold event_generator. rewrite Hfail. reflexivity.
Qed.

(** When the singleton does not exist and cannot be constructed, a chat
    request raises before it is counted and a socket is accepted and then
    dropped: the state is exactly what it was. *)
Theorem chat_without_pipeline_changes_nothing
  (pf : Platform) (request : ChatRequest) (t0 t1 : float) (turns : list turn)
  (s : Process) (e : exc) :
  rag_pipeline (globals s) = None ->
  RAGPipeline_init pf (instances (globals s)) = Raise e ->
  post_api_chat pf request t0 t1 s = (Raise e, s)
  /\ websocket_endpoint pf turns s = (Raise e, [Accepted], s).
Proof.
  intros Hslot Hinit.
  unfold post_api_chat, chat, websocket_endpoint, get_rag_pipeline.
  rewrite Hslot, Hinit, process_eta. split; reflexivity.
Qed.

Lemma ws_turn_globals (p : RAGPipeline) (t : turn) (s : Process) :
  globals (snd (fst (ws_turn p t s))) = globals s.
Proof. unfold ws_turn. destruct (failure _); reflexivity. Qed.

Lemma ws_turn_any_state (p : RAGPipeline) (t : turn) (s s' : Process) :
  fst (fst (ws_turn p t s)) = fst (fst (ws_turn p t s'))
  /\ snd (ws_turn p t s) = snd (ws_turn p t s').
Proof. unfold ws_turn. destruct (failure _); split; reflexivity. Qed.

Lemma ws_loop_globals (p : RAGPipeline) (turns : list turn) :
  forall s, globals (snd (ws_loop p turns s)) = globals s.
Proof.
  induction turns as [| t rest IH]; intros s; [reflexivity |]. simpl.
  pose proof (ws_turn_globals p t s) as Ht.
  destruct (ws_turn p t s) as [[evs s1] [|]]; simpl in Ht.
  - specialize (IH s1). destruct (ws_loop p rest s1) as [evs' s2]. simpl in *. congruence.
  - exact Ht.
Qed.

(** What a socket sends does not depend on the process state while it is
    served: it answers with the pipeline obtained when the connection was
    accepted, even if the singleton or the statistics are different by
    the time a message arrives; and the loop never touches the singleton. *)
Theorem socket_keeps_the_pipeline_it_started_with
  (p : RAGPipeline) (turns : list turn) (s s' : Process) :
  fst (ws_loop p turns s) = fst (ws_loop p turns s')
  /\ globals (snd (ws_loop p turns s)) = globals s.
Proof.
  split; [| apply ws_loop_globals].
  revert s s'. induction turns as [| t rest IH]; intros s s'; [reflexivity |]. simpl.
  destruct (ws_turn_any_state p t s s') as [Hevs Hflag].
  destruct (ws_turn p t s) as [[evs s1] done], (ws_turn p t s') as [[evs' s1'] done'].
  simpl in Hevs, Hflag. subst evs' done'.
  destruct done; [| reflexivity].
  specialize (IH s1 s1').
  destruct (ws_loop p rest s1) as [e1 r1], (ws_loop p rest s1') as [e2 r2].
  simpl in *. congruence.
Qed.

Lemma received_app (a b : list ws_event) : received (a ++ b) = received a + received b.
Proof.
  induction a as [| e a IH]; [reflexivity |].
  destruct e; simpl; rewrite IH; reflexivity.
Qed.

Lemma received_sent (texts : list string) : received (map Sent texts) = 0.
Proof. induction texts; simpl; auto. Qed.

Lemma received_except (raised : option exc) : received (except_clauses raised) = 0.
Proof. destruct raised as [[]|]; reflexivity. Qed.

Lemma ws_turn_counts (p : RAGPipeline) (t : turn) (s : Process) :
  received (fst (fst (ws_turn p t s))) = 1
  /\ total_queries (stats (snd (fst (ws_turn p t s)))) = (total_queries (stats s) + 1)%Z.
Proof.
  unfold ws_turn. destruct (failure _); simpl.
  - rewrite received_sent. split; reflexivity.
  - rewrite received_app, received_sent. split; reflexivity.
Qed.

Lemma ws_loop_counts (p : RAGPipeline) (turns : list turn) :
  forall s,
    total_queries (stats (snd (ws_loop p turns s)))
    = (total_queries (stats s) + Z.of_nat (received (fst (ws_loop p turns s))))%Z.
Proof.
  induction turns as [| t rest IH]; intros s; simpl; [lia |].
  destruct (ws_turn_counts p t s) as [Hone Htotal].
  destruct (ws_turn p t s) as [[evs s1] [|]]; simpl in Hone, Htotal.
  - specialize (IH s1). destruct (ws_loop p rest s1) as [evs' s2]. simpl in *.
    rewrite received_app, Hone, IH, Htotal. lia.
  - simpl. rewrite received_app, Hone, Htotal, received_except. lia.
Qed.

(** Over a whole connection, [total_queries] grows by the number of text
    messages the socket received, whether their answers completed or not;
    a connection that fails before its first message adds nothing. *)
Theorem socket_counts_every_received_message
  (pf : Platform) (turns : list turn) (s : Process) :
  let '(_, frames, s') := websocket_endpoint pf turns s in
  total_queries (stats s')
  = (total_queries (stats s) + Z.of_nat (received frames))%Z.
Proof.
  unfold websocket_endpoint.
  destruct (get_rag_pipeline pf (globals s)) as [[p | e] g]; [| simpl; lia].
  pose proof (ws_loop_counts p turns {| globals := g; stats := stats s |}) as Hcount.
  destruct (ws_loop p turns _) as [evs s']. simpl in *. exact Hcount.
Qed.

(** When the answer of a message raises, the socket has sent the fragments
    produced so far and sends no [[DONE]] for that message; the messages
    after it are never received and the handler itself returns.  The socket
    is closed, except when the exception is [WebSocketDisconnect], which
    the handler only logs. *)
Theorem socket_closes_on_a_failed_stream
  (pf : Platform) (before after : list turn) (t : turn) (s : Process)
  (p : RAGPipeline) (g : Globals) (e : exc) :
  get_rag_pipeline pf (globals s) = (Ok p, g) ->
  (forall t', In t' before -> failure (get_response_stream p (data t')) = None) ->
  failure (get_response_stream p (data t)) = Some e ->
  fst (websocket_endpoint pf (before ++ t :: after) s)
  = (Ok tt,
     Accepted :: flat_map (turn_frames p) before
       ++ Received (data t) :: map Sent (chunks (get_response_stream p (data t)))
       ++ match e with
          | WebSocketDisconnect => []
          | _ => [Closed]
          end).
Proof.
  intros Hp Hbefore Hfail. unfold websocket_endpoint. rewrite Hp.
  assert (Hloop : forall s0,
             fst (ws_loop p (before ++ t :: after) s0)
             = flat_map (turn_frames p) before
                 ++ Received (data t)
                      :: map Sent (chunks (get_response_stream p (data t)))
                      ++ except_clauses (Some e)).
  { induction before as [| t' rest IH]; intros s0.
    - simpl. unfold ws_turn. rewrite Hfail. reflexivity.
    - simpl. unfold ws_turn at 1. rewrite (Hbefore t' (or_introl eq_refl)).
      match goal with |- context [ws_loop p _ ?s1] =>
        specialize (IH (fun x Hx => Hbefore x (or_intror Hx)) s1);
        destruct (ws_loop p (rest ++ t :: after) s1) as [evs s2]
      end.
      simpl in *. rewrite IH. unfold turn_frames. rewrite <- !app_assoc. reflexivity. }
  specialize (Hloop {| globals := g; stats := stats s |}).
  destruct (ws_loop p _ _) as [evs s']. simpl in *. rewrite Hloop.
  destruct e; reflexivity.
Qed.

Lemma ws_loop_status (p : RAGPipeline) (turns : list turn) :
  forall s,
    index_status (stats (snd (ws_loop p turns s))) = index_status (stats s)
    /\ last_reindex_time (stats (snd (ws_loop p turns s))) = last_reindex_time (stats s).
Proof.
  induction turns as [| t rest IH]; intros s; [split; reflexivity |]. simpl.
  assert (Ht : index_status (stats (snd (fst (ws_turn p t s)))) = index_status (stats s)
               /\ last_reindex_time (stats (snd (fst (ws_turn p t s))))
                  = last_reindex_time (stats s)).
  { unfold ws_turn. destruct (failure _); split; reflexivity. }
  destruct (ws_turn p t s) as [[evs s1] [|]]; simpl in Ht.
  - specialize (IH s1). destruct (ws_loop p rest s1) as [evs' s2]. simpl in *.
    destruct IH, Ht. split; congruence.
  - exact Ht.
Qed.

Lemma post_api_chat_status (pf : Platform) (request : ChatRequest) (t0 t1 : float)
  (s : Process) :
  index_status (stats (snd (post_api_chat pf request t0 t1 s))) = index_status (stats s)
  /\ last_reindex_time (stats (snd (post_api_chat pf request t0 t1 s)))
     = last_reindex_time (stats s).
Proof.
  unfold post_api_chat, chat.
  destruct (get_rag_pipeline pf (globals s)) as [[p | e] g]; [| split; reflexivity].
  destruct (stream_ request); [unfold event_generator; destruct (failure _) |
                               destruct (get_response _ _)]; split; reflexivity.
Qed.

Lemma post_api_chat_globals (pf : Platform) (request : ChatRequest) (t0 t1 : float)
  (s : Process) :
  globals (snd (post_api_chat pf request t0 t1 s)) = snd (get_rag_pipeline pf (globals s)).
Proof.
  unfold post_api_chat, chat.
  destruct (get_rag_pipeline pf (globals s)) as [[p | e] g]; [| reflexivity].
  destruct (stream_ request); [unfold event_generator; destruct (failure _) |
                               destruct (get_response _ _)]; reflexivity.
Qed.

(** The chat paths never touch [index_status] and [last_reindex_time], and
    the reindex and startup handlers never touch [total_queries] and
    [avg_response_time]. *)
Theorem handlers_keep_to_their_own_statistics
  (sv : Services) (fs : FileSystem) (pf : Platform) (now : string)
  (str_exc : exc -> string) (request : ChatRequest) (t0 t1 : float)
  (turns : list turn) (s : Process) :
  let chatted := stats (snd (post_api_chat pf request t0 t1 s)) in
  let served := stats (snd (websocket_endpoint pf turns s)) in
  let rebuilt := stats (snd (fst (reindex sv fs pf now s))) in
  let started := stats (startup_event str_exc pf now s) in
  (index_status chatted = index_status (stats s)
   /\ last_reindex_time chatted = last_reindex_time (stats s))
  /\ (index_status served = index_status (stats s)
      /\ last_reindex_time served = last_reindex_time (stats s))
  /\ (total_queries rebuilt = total_queries (stats s)
      /\ avg_response_time rebuilt = avg_response_time (stats s))
  /\ (total_queries started = total_queries (stats s)
      /\ avg_response_time started = avg_response_time (stats s)).
Proof.
  cbv zeta. repeat apply conj.
  - apply post_api_chat_status.
  - apply post_api_chat_status.
  - unfold websocket_endpoint.
    destruct (get_rag_pipeline pf (globals s)) as [[p | e] g]; [| reflexivity].
    pose proof (ws_loop_status p turns {| globals := g; stats := stats s |}) as [H _].
    destruct (ws_loop p turns _); exact H.
  - unfold websocket_endpoint.
    destruct (get_rag_pipeline pf (globals s)) as [[p | e] g]; [| reflexivity].
    pose proof (ws_loop_status p turns {| globals := g; stats := stats s |}) as [_ H].
    destruct (ws_loop p turns _); exact H.
  - unfold reindex. destruct (initialize_pinecone sv fs) as [[|] log];
      [destruct (RAGPipeline_init _ _) |]; reflexivity.
  - unfold reindex. destruct (initialize_pinecone sv fs) as [[|] log];
      [destruct (RAGPipeline_init _ _) |]; reflexivity.
  - unfold startup_event. destruct (get_rag_pipeline _ _) as [[p | e] g]; reflexivity.
  - unfold startup_event. destruct (get_rag_pipeline _ _) as [[p | e] g]; reflexivity.
Qed.

(** After a successful reindex the next chat request, whatever the
    platform then is, is answered by the pipeline the handler installed,
    and constructs nothing. *)
Theorem chat_after_reindex_uses_the_new_pipeline
  (sv : Services) (fs : FileSystem) (pf : Platform) (now : string) (s : Process)
  (p : RAGPipeline) :
  fst (initialize_pinecone sv fs) = true ->
  RAGPipeline_init pf (instances (globals s)) = Ok p ->
  let s1 := snd (fst (reindex sv fs pf now s)) in
  forall pf' m t0 t1,
    fst (post_api_chat pf' {| message := m; stream_ := false |} t0 t1 s1)
    = match get_response p m with
      | Ok text => Ok (Json [("response", VStr text)])
      | Raise e => Raise e
      end
    /\ fst (post_api_chat pf' {| message := m; stream_ := true |} t0 t1 s1)
       = Ok (Chunked (get_response_stream p m))
    /\ globals (snd (post_api_chat pf' {| message := m; stream_ := false |} t0 t1 s1))
       = globals s1
    /\ globals (snd (post_api_chat pf' {| message := m; stream_ := true |} t0 t1 s1))
       = globals s1.
Proof.
  intros Hbuilt Hinit. cbv zeta. unfold reindex.
  destruct (initialize_pinecone sv fs) as [success log]. simpl in Hbuilt. subst success.
  rewrite Hinit. cbn [fst snd]. intros pf' m t0 t1.
  rewrite !post_api_chat_globals.
  unfold post_api_chat, chat, get_rag_pipeline. cbn [globals rag_pipeline stream_ message].
  repeat split.
  - destruct (get_response p m); reflexivity.
  - unfold event_generator. destruct (failure _); reflexivity.
Qed.

(** When the pipeline cannot be constructed at startup, the health endpoint
    keeps answering [healthy] with the startup error as [index_status]
    after any later chat request, even one that constructs the pipeline;
    only a successful reindex sets the status back to [Ready (Pinecone)]. *)
Theorem health_shows_the_startup_error_until_reindex
  (str_exc : exc -> string) (pf : Platform) (now : string) (s : Process) (e : exc) :
  rag_pipeline (globals s) = None ->
  RAGPipeline_init pf (instances (globals s)) = Raise e ->
  let s1 := startup_event str_exc pf now s in
  (forall pf' request t0 t1 timestamp,
      health timestamp (snd (post_api_chat pf' request t0 t1 s1))
      = [("status", VStr "healthy");
         ("index_status", VStr ("Error: " ^^ str_exc e));
         ("timestamp", VFloat timestamp)])
  /\ (forall sv fs pf' now' p timestamp,
        fst (initialize_pinecone sv fs) = true ->
        RAGPipeline_init pf' (instances (globals s1)) = Ok p ->
        health timestamp (snd (fst (reindex sv fs pf' now' s1)))
        = [("status", VStr "healthy");
           ("index_status", VStr "Ready (Pinecone)");
           ("timestamp", VFloat timestamp)]).
Proof.
  intros Hslot Hinit. cbv zeta.
  assert (Hstart : index_status (stats (startup_event str_exc pf now s))
                   = "Error: " ^^ str_exc e).
  { unfold startup_event, get_rag_pipeline. rewrite Hslot, Hinit. reflexivity. }
  split.
  - intros pf' request t0 t1 timestamp. unfold health.
    destruct (post_api_chat_status pf' request t0 t1 (startup_event str_exc pf now s))
      as [Hstatus _].
    rewrite Hstatus, Hstart. reflexivity.
  - intros sv fs pf' now' p timestamp Hbuilt Hnew. unfold health, reindex.
    destruct (initialize_pinecone sv fs) as [success log]. simpl in Hbuilt. subst success.
    rewrite Hnew. reflexivity.
Qed.

End Handlers.

Lemma failed_chat_is_counted_but_not_averaged_witness :
  let s := Doubles.running_with Doubles.pipeline_down in
  let e := ServiceError "unreachable" in
  post_api_chat Doubles.platform {| message := "Hello"; stream_ := false |} 10 12.5 s
  = (Raise e, {| globals := globals s; stats := count_query (stats s) |})
  /\ post_api_chat Doubles.platform {| message := "Hello"; stream_ := true |} 10 12.5 s
     = (Ok (Chunked (get_response_stream Doubles.pipeline_down "Hello")),
        {| globals := globals s; stats := count_query (stats s) |}).
Proof.
  cbv zeta.
  destruct (failed_chat_is_counted_but_not_averaged Doubles.platform "Hello" 10 12.5
              (Doubles.running_with Doubles.pipeline_down)
              (p := Doubles.pipeline_down)
              (g := globals (Doubles.running_with Doubles.pipeline_down))
              (ServiceError "unreachable") eq_refl) as [Hplain Hstream].
  split; [apply Hplain | apply Hstream]; reflexivity.
Defined.

Lemma chat_without_pipeline_changes_nothing_witness :
  let request := {| message := "Hello"; stream_ := true |} in
  let turns := [{| data := "Hello"; started := 10; finished := 12.5 |}] in
  post_api_chat Doubles.platform_down request 10 12.5 Doubles.fresh_process
  = (Raise (ServiceError "unreachable"), Doubles.fresh_process)
  /\ websocket_endpoint Doubles.platform_down turns Doubles.fresh_process
     = (Raise (ServiceError "unreachable"), [Accepted], Doubles.fresh_process).
Proof.
  cbv zeta.
  apply (chat_without_pipeline_changes_nothing Doubles.platform_down
           {| message := "Hello"; stream_ := true |} 10 12.5
           [{| data := "Hello"; started := 10; finished := 12.5 |}]
           Doubles.fresh_process (e := ServiceError "unreachable"));
    reflexivity.
Defined.

Lemma socket_closes_on_a_failed_stream_witness :
  let hello := {| data := "Hello"; started := 10; finished := 12.5 |} in
  let crash := {| data := "crash"; started := 20; finished := 21 |} in
  fst (websocket_endpoint Doubles.platform [hello; crash; hello]
         (Doubles.running_with Doubles.pipeline_flaky))
  = (Ok tt,
     [Accepted;
      Received "Hello"; Sent "Hi"; Sent ", I am "; Sent "Hammad"; Sent "[DONE]";
      Received "crash"; Closed]).
Proof.
  cbv zeta.
  apply (socket_closes_on_a_failed_stream Doubles.platform
           [{| data := "Hello"; started := 10; finished := 12.5 |}]
           [{| data := "Hello"; started := 10; finished := 12.5 |}]
           {| data := "crash"; started := 20; finished := 21 |}
           (Doubles.running_with Doubles.pipeline_flaky)
           (p := Doubles.pipeline_flaky)
           (g := globals (Doubles.running_with Doubles.pipeline_flaky))
           (e := ServiceError "unreachable")).
  - reflexivity.
  - intros t' [<- | []]. reflexivity.
  - reflexivity.
Defined.

Lemma chat_after_reindex_uses_the_new_pipeline_witness :
  let p := {| ident := 1; api_key := Some "pc-key"; llm := Doubles.model;
              index_name := "greyfang"; vectorstore := Doubles.store |} in
  let s1 := snd (fst (reindex (rt := Doubles.runtime) Doubles.steady Doubles.data_dir
                              Doubles.platform "2026-01-01 00:00:00" Doubles.running)) in
  let plain := {| message := "Who are you?"; stream_ := false |} in
  let streamed := {| message := "Who are you?"; stream_ := true |} in
  fst (post_api_chat Doubles.platform_down plain 10 12.5 s1)
  = match get_response p "Who are you?" with
    | Ok text => Ok (Json [("response", VStr text)])
    | Raise e => Raise e
    end
  /\ fst (post_api_chat Doubles.platform_down streamed 10 12.5 s1)
     = Ok (Chunked (get_response_stream p "Who are you?"))
  /\ globals (snd (post_api_chat Doubles.platform_down plain 10 12.5 s1)) = globals s1
  /\ globals (snd (post_api_chat Doubles.platform_down streamed 10 12.5 s1)) = globals s1.
Proof.
  cbv zeta.
  apply (chat_after_reindex_uses_the_new_pipeline (rt := Doubles.runtime)
           Doubles.steady Doubles.data_dir Doubles.platform "2026-01-01 00:00:00"
           Doubles.running eq_refl eq_refl Doubles.platform_down "Who are you?" 10 12.5).
Defined.

Lemma health_shows_the_startup_error_until_reindex_witness :
  let s1 := startup_event Doubles.message_of Doubles.platform_down "2026-01-01 00:00:00"
                          Doubles.fresh_process in
  (forall pf' request t0 t1 timestamp,
      health timestamp (snd (post_api_chat pf' request t0 t1 s1))
      = [("status", VStr "healthy");
         ("index_status", VStr "Error: unreachable");
         ("timestamp", VFloat timestamp)])
  /\ (forall sv fs pf' now' p timestamp,
        fst (initialize_pinecone (rt := Doubles.runtime) sv fs) = true ->
        RAGPipeline_init pf' (instances (globals s1)) = Ok p ->
        health timestamp (snd (fst (reindex (rt := Doubles.runtime) sv fs pf' now' s1)))
        = [("status", VStr "healthy");
           ("index_status", VStr "Ready (Pinecone)");
           ("timestamp", VFloat timestamp)]).
Proof.
  apply (health_shows_the_startup_error_until_reindex (rt := Doubles.runtime)
           Doubles.message_of Doubles.platform_down "2026-01-01 00:00:00"
           Doubles.fresh_process (e := ServiceError "unreachable"));
    reflexivity.
Defined.

(** A first request after the failed startup constructs the pipeline and is
    answered, and the health endpoint still shows the startup error. *)
Example stale_status_after_recovery :
  let s1 := startup_event Doubles.message_of Doubles.platform_down "2026-01-01 00:00:00"
                          Doubles.fresh_process in
  let '(r, s2) := post_api_chat Doubles.platform
                    {| message := "Hello"; stream_ := false |} 10 12.5 s1 in
  r = Ok (Json [("response", VStr "Hi, I am Hammad")])
  /\ lookup "index_status" (health 13 s2) = Some (VStr "Error: unreachable")
  /\ lookup "total_queries" (get_stats s2) = Some (VInt 1).
Proof. repeat split; reflexivity. Qed.

Lemma fallback_document_of_object_witness :
  document_of (rt := Doubles.runtime) "notes.json" (VDict [("name", VStr "Notes")])
  = Ok {| page_content := json_dumps_indent2 (Runtime := Doubles.runtime)
                            (VDict [("name", VStr "Notes")]);
          metadata := [("source", VStr "notes.json");
                       ("type", VStr "portfolio_data");
                       ("name", dict_get [("name", VStr "Notes")] "name"
                                  (VStr (replace ".json" "" "notes.json")))] |}.
Proof.
  apply (fallback_document_of_object (rt := Doubles.runtime) "notes.json"
           [("name", VStr "Notes")]).
  reflexivity.
Defined.

(** A [WebSocketDisconnect] raised while a message is answered is only
    logged: the fragment sent so far is the last frame, the socket is not
    closed by the handler. *)
Example disconnect_while_answering :
  snd (fst (websocket_endpoint Doubles.platform
              [{| data := "Hello"; started := 10; finished := 12.5 |}]
              (Doubles.running_with Doubles.pipeline_hangup)))
  = [Accepted; Received "Hello"; Sent "Hi"].
Proof. reflexivity. Qed.
